(** * Certificate status report: builder, decoders and rendering

    A shallow embedding of [cmd/ctl/pkg/status/certificate/types.go]
    (package [certificate] of cert-manager's [kubectl cert-manager status
    certificate] command) and the properties of it that the specification
    states.

    Conventions of the embedding:
    - a Go [string] is a [string] (a sequence of bytes), a [[]byte] is a
      [list byte], a Go [int] is a [Z] (no operation of this file can leave
      the 64-bit range: the only arithmetic is a subtraction guarded by
      [>=]);
    - a pointer that may be [nil] is an [option], a [map[string][]byte] is a
      [gmap string (list byte)];
    - the builder methods mutate their receiver and return it: they are
      functions from the builder's state to its next state. The receiver is
      taken to be non-nil (on a nil receiver the first assignment panics);
    - an [error] is the value whose [Error()] method gives its message. *)

From Stdlib Require Import ZArith Lia Strings.String Strings.Ascii Strings.Byte List DecimalString.
From stdpp Require Import gmap strings list.

Open Scope Z_scope.

(** ** The Go standard library, as far as the source calls it *)

(** The [error] interface: a value with an [Error() string] method. *)
Record error := errorString { error_Error : string }.

(** [strings.Join]. *)
Fixpoint strings_Join (elems : list string) (sep : string) : string :=
  match elems with
  | [] => ""
  | [a] => a
  | a :: rest => a +:+ sep +:+ strings_Join rest sep
  end.

(** The verb [%d] of package [fmt] on an integer. *)
Definition fmt_d (n : Z) : string := NilEmpty.string_of_int (Z.to_int n).

(** [strings.Contains s substr]. *)
Definition strings_Contains (s substr : string) : Prop :=
  exists pre post, s = pre +:+ substr +:+ post.

(** The same test as a program: [substr] is a prefix of some suffix of [s]. *)
Fixpoint containsb (s substr : string) : bool :=
  String.prefix substr s ||
  match s with
  | EmptyString => false
  | String _ s' => containsb s' substr
  end.

Definition byte_of_Z (n : Z) : byte :=
  default x00 (Byte.of_N (Z.to_N (n mod 256))).

Definition Z_of_byte (b : byte) : Z := Z.of_N (Byte.to_N b).

Definition Z_of_ascii (c : ascii) : Z := Z.of_N (N_of_ascii c).

Definition ascii_of_Z (n : Z) : ascii := ascii_of_N (Z.to_N (n mod 256)).

(** The digits [hex.EncodeToString] and [strconv.Quote] index into. *)
Definition hextable : string := "0123456789abcdef".

Definition hexdigit (n : Z) : ascii :=
  default "0"%char (String.get (Z.to_nat n) hextable).

(** [hex.EncodeToString]: two digits per byte, high nibble first. *)
Fixpoint hex_EncodeToString (src : list byte) : string :=
  match src with
  | [] => ""
  | v :: rest =>
      String (hexdigit (Z.shiftr (Z_of_byte v) 4))
        (String (hexdigit (Z.land (Z_of_byte v) 15)) (hex_EncodeToString rest))
  end.

(** The method [Bytes] of [big.Int]: the absolute value as a big-endian byte slice
    without leading zero bytes. [fuel] bounds the number of bytes. *)
Fixpoint nat_bytes (fuel : nat) (n : Z) (acc : list byte) : list byte :=
  match fuel with
  | O => acc
  | S fuel' =>
      if n =? 0 then acc
      else nat_bytes fuel' (n / 256) (byte_of_Z (n mod 256) :: acc)
  end.

Definition big_Int_Bytes (x : Z) : list byte :=
  nat_bytes (Z.to_nat (Z.log2 (Z.abs x)) + 1) (Z.abs x) [].

(** The value a big-endian byte sequence denotes. *)
Definition big_endian_value (bs : list byte) : Z :=
  fold_left (fun acc b => acc * 256 + Z_of_byte b) bs 0.

(** How [fmt.Println] shows a [[]byte]: the decimal values of the bytes
    between brackets, separated by spaces, and a newline. *)
Definition fmt_Println_bytes (bs : list byte) : string :=
  "[" +:+ strings_Join (map (fun b => fmt_d (Z_of_byte b)) bs) " " +:+ "]" +:+
  String "010" "".

(** *** The verb [%q] of package [fmt] on a string: [strconv.Quote]

    The quoted form is the string between double quotes in which the double
    quote and the backslash are backslashed, a printable rune stands for
    itself and any other rune or byte is escaped. Which runes above U+00FF
    are printable is a table of package [unicode]; the functions take it as
    [isPrintWide]. *)

Definition utf8_RuneError : Z := 65533.

(** [utf8.DecodeRuneInString]: the first rune of [s] and its width in bytes;
    [(RuneError, 1)] for a byte sequence that is not valid UTF-8. *)
Definition utf8_DecodeRuneInString (s : string) : Z * nat :=
  let byteAt i := Z_of_ascii (default "000"%char (String.get i s)) in
  let n := String.length s in
  let s0 := byteAt 0%nat in
  if (s0 <? 128) then (s0, 1%nat)
  else if (s0 <? 194) || (244 <? s0) then (utf8_RuneError, 1%nat)
  else
    let sz := if s0 <? 224 then 2%nat else if s0 <? 240 then 3%nat else 4%nat in
    let lo := if s0 =? 224 then 160 else if s0 =? 240 then 144 else 128 in
    let hi := if s0 =? 237 then 159 else if s0 =? 244 then 143 else 191 in
    if (n <? sz)%nat then (utf8_RuneError, 1%nat)
    else
      let s1 := byteAt 1%nat in
      if (s1 <? lo) || (hi <? s1) then (utf8_RuneError, 1%nat)
      else if (sz <=? 2)%nat then
        (Z.lor (Z.shiftl (Z.land s0 31) 6) (Z.land s1 63), 2%nat)
      else
        let s2 := byteAt 2%nat in
        if (s2 <? 128) || (191 <? s2) then (utf8_RuneError, 1%nat)
        else if (sz <=? 3)%nat then
          (Z.lor (Z.lor (Z.shiftl (Z.land s0 15) 12) (Z.shiftl (Z.land s1 63) 6))
             (Z.land s2 63), 3%nat)
        else
          let s3 := byteAt 3%nat in
          if (s3 <? 128) || (191 <? s3) then (utf8_RuneError, 1%nat)
          else
            (Z.lor (Z.lor (Z.lor (Z.shiftl (Z.land s0 7) 18)
                                 (Z.shiftl (Z.land s1 63) 12))
                          (Z.shiftl (Z.land s2 63) 6))
               (Z.land s3 63), 4%nat).

(** [utf8.EncodeRune]. *)
Definition utf8_EncodeRune (r : Z) : string :=
  let cont x := ascii_of_Z (Z.lor 128 (Z.land x 63)) in
  if r <=? 127 then String (ascii_of_Z r) ""
  else if r <=? 2047 then
    String (ascii_of_Z (Z.lor 192 (Z.shiftr r 6))) (String (cont r) "")
  else if (1114111 <? r) || ((55296 <=? r) && (r <=? 57343)) then
    String "239" (String "191" (String "189" ""))
  else if r <=? 65535 then
    String (ascii_of_Z (Z.lor 224 (Z.shiftr r 12)))
      (String (cont (Z.shiftr r 6)) (String (cont r) ""))
  else
    String (ascii_of_Z (Z.lor 240 (Z.shiftr r 18)))
      (String (cont (Z.shiftr r 12))
         (String (cont (Z.shiftr r 6)) (String (cont r) ""))).

(** The hexadecimal digits of [r] from bit [4 * digits - 4] down to bit 0. *)
Fixpoint hexdigits (digits : nat) (r : Z) : string :=
  match digits with
  | O => ""
  | S d => String (hexdigit (Z.land (Z.shiftr r (4 * Z.of_nat d)) 15)) (hexdigits d r)
  end.

Section Quote.

Variable isPrintWide : Z -> bool.

(** [strconv.IsPrint]. *)
Definition strconv_IsPrint (r : Z) : bool :=
  if r <=? 255 then
    if (32 <=? r) && (r <=? 126) then true
    else if (161 <=? r) && (r <=? 255) then negb (r =? 173)
    else false
  else isPrintWide r.

(** [appendEscapedRune] of package [strconv], for the double quote. *)
Definition appendEscapedRune (r : Z) : string :=
  let backslash := String "\" "" in
  if (r =? 34) || (r =? 92) then backslash +:+ String (ascii_of_Z r) ""
  else if strconv_IsPrint r then utf8_EncodeRune r
  else if r =? 7 then backslash +:+ "a"
  else if r =? 8 then backslash +:+ "b"
  else if r =? 12 then backslash +:+ "f"
  else if r =? 10 then backslash +:+ "n"
  else if r =? 13 then backslash +:+ "r"
  else if r =? 9 then backslash +:+ "t"
  else if r =? 11 then backslash +:+ "v"
  else if r <? 32 then backslash +:+ "x" +:+ hexdigits 2 r
  else if 1114111 <? r then backslash +:+ "u" +:+ hexdigits 4 utf8_RuneError
  else if r <? 65536 then backslash +:+ "u" +:+ hexdigits 4 r
  else backslash +:+ "U" +:+ hexdigits 8 r.

(** The loop of [appendQuotedWith]: one rune at a time. The bytes of a rune
    wider than one byte are passed over with [skip]. *)
Fixpoint quoteLoop (skip : nat) (s : string) : string :=
  match s with
  | EmptyString => ""
  | String c s' =>
      match skip with
      | S k => quoteLoop k s'
      | O =>
          let '(r, width) :=
            if Z_of_ascii c <? 128 then (Z_of_ascii c, 1%nat)
            else utf8_DecodeRuneInString s in
          (if (width =? 1)%nat && (r =? utf8_RuneError)
           then String "\" "x" +:+ hexdigits 2 (Z_of_ascii c)
           else appendEscapedRune r)
          +:+ quoteLoop (width - 1) s'
      end
  end.

Definition strconv_Quote (s : string) : string :=
  String "034" "" +:+ quoteLoop 0 s +:+ String "034" "".

End Quote.

(** A string that [strconv.Quote] leaves as it is between the quotes:
    printable ASCII without the double quote and the backslash. Every
    Kubernetes object name is such a string. *)
Definition plainChar (c : ascii) : bool :=
  let n := Z_of_ascii c in
  (32 <=? n) && (n <=? 126) && negb (n =? 34) && negb (n =? 92).

Fixpoint plainString (s : string) : bool :=
  match s with
  | EmptyString => true
  | String c s' => plainChar c && plainString s'
  end.

(** ** The key-usage decoders *)

Definition nl : string := String "010" "".

Definition keyUsageToStringMap : gmap Z string :=
  list_to_map
    [ (1, "Digital Signature"); (2, "Content Commitment"); (4, "Key Encipherment");
      (8, "Data Encipherment"); (16, "Key Agreement"); (32, "Cert Sign");
      (64, "CRL Sign"); (128, "Encipher Only"); (256, "Decipher Only") ].

Definition keyUsagePossibleValues : list Z := [256; 128; 64; 32; 16; 8; 4; 2; 1].

Definition extKeyUsageStringValues : list string :=
  [ "Any"; "Server Authentication"; "Client Authentication"; "Code Signing";
    "Email Protection"; "IPSEC End System"; "IPSEC Tunnel"; "IPSEC User";
    "Time Stamping"; "OCSP Signing"; "Microsoft Server Gated Crypto";
    "Netscape Server Gated Crypto"; "Microsoft Commercial Code Signing";
    "Microsoft Kernel Code Signing" ].

(** The first loop of [keyUsageToString], over the values that are left:
    a value that fits is subtracted and its label appended; the loop is
    left as soon as nothing remains. A key the map does not have reads as
    the empty string. *)
Fixpoint keyUsageLoop (vals : list Z) (usageInt : Z) (usageStrings : list string)
  : list string :=
  match vals with
  | [] => usageStrings
  | val :: rest =>
      let '(usageInt, usageStrings) :=
        if usageInt >=? val
        then (usageInt - val, usageStrings ++ [default "" (keyUsageToStringMap !! val)])
        else (usageInt, usageStrings) in
      if usageInt =? 0 then usageStrings
      else keyUsageLoop rest usageInt usageStrings
  end.

(** [usageStrings[i], usageStrings[opp] = usageStrings[opp], usageStrings[i]].
    The loop below only swaps positions inside the slice. *)
Definition swap (usageStrings : list string) (i opp : nat) : list string :=
  match usageStrings !! i, usageStrings !! opp with
  | Some a, Some b => <[i := b]> (<[opp := a]> usageStrings)
  | _, _ => usageStrings
  end.

(** The second loop, from index [i] on, with [count] iterations to go. *)
Fixpoint reverseFrom (count i : nat) (usageStrings : list string) : list string :=
  match count with
  | O => usageStrings
  | S count' =>
      let opp := (length usageStrings - 1 - i)%nat in
      reverseFrom count' (S i) (swap usageStrings i opp)
  end.

Definition reverseInPlace (usageStrings : list string) : list string :=
  reverseFrom (Nat.div (length usageStrings) 2) 0 usageStrings.

Definition keyUsageToString (usage : Z) : string :=
  let usageInt := usage in
  let usageStrings := keyUsageLoop keyUsagePossibleValues usageInt [] in
  strings_Join (reverseInPlace usageStrings) ", ".

(** The loop of [extKeyUsageToString]: the result is the pair the Go
    function returns, the string and the error ([None] for [nil]). *)
Fixpoint extKeyUsageLoop (extUsages : list Z) (extUsageStrings : list string)
  : string * option error :=
  match extUsages with
  | [] => (strings_Join extUsageStrings ", ", None)
  | extUsage :: rest =>
      if (extUsage <? 0) || (extUsage >=? Z.of_nat (length extKeyUsageStringValues))
      then ("", Some (errorString
             ("error when converting Extended Usages to string: encountered unknown Extended Usage with code "
              +:+ fmt_d extUsage)))
      else extKeyUsageLoop rest
             (extUsageStrings ++ [default "" (extKeyUsageStringValues !! Z.to_nat extUsage)])
  end.

Definition extKeyUsageToString (extUsages : list Z) : string * option error :=
  extKeyUsageLoop extUsages [].

(** *** The decoders as the specification words them *)

(** The labels of the nine key-usage bits, bit 0 first. *)
Definition keyUsageLabels : list string :=
  [ "Digital Signature"; "Content Commitment"; "Key Encipherment";
    "Data Encipherment"; "Key Agreement"; "Cert Sign"; "CRL Sign";
    "Encipher Only"; "Decipher Only" ].

(** The labels of the bits of [b] that are set, from bit [i] on, in
    ascending order of the bits. *)
Fixpoint labelsOfBits (i : Z) (labels : list string) (b : Z) : list string :=
  match labels with
  | [] => []
  | label :: rest =>
      (if Z.testbit b i then [label] else []) ++ labelsOfBits (i + 1) rest b
  end.

(** The rendering the specification describes: the labels of the active
    bits among the low nine, joined. *)
Definition keyUsageToLabels (b : Z) : string :=
  strings_Join (labelsOfBits 0 keyUsageLabels b) ", ".

(** The label of an extended key usage code. *)
Definition extKeyUsageLabel (code : Z) : string :=
  default "" (extKeyUsageStringValues !! Z.to_nat code).

Definition extKeyUsageKnown (code : Z) : Prop := 0 <= code <= 13.

Definition extKeyUsageError (code : Z) : error :=
  errorString
    ("error when converting Extended Usages to string: encountered unknown Extended Usage with code "
     +:+ fmt_d code).

(** ** The resources the builder reads

    Of the API types only the fields the source reads are kept. *)

(** [metav1.Time], a point in time. *)
Definition Time : Type := Z.

(** Modelled from the spec: the condition types of package [cmapiv1alpha2]
    ([IssuerCondition], [CertificateCondition], [CertificateRequestCondition])
    are declared outside this file; each is the tuple {type, status, reason,
    message}, the type and the status being strings. *)
Record Condition := mkCondition {
  Type_ : string;
  Status : string;
  Reason : string;
  Message : string
}.

Record Event := mkEvent {
  Event_Type : string;
  Event_Reason : string;
  Event_Message : string
}.

(** [v1.EventList]. *)
Record EventList := mkEventList { Items : list Event }.

(** [cmapiv1alpha2.Certificate]. *)
Module Certificate.
Record t := mk {
  Name : string;
  Namespace : string;
  CreationTimestamp : Time;
  Spec_DNSNames : list string;
  Status_Conditions : list Condition;
  Status_NotBefore : option Time;
  Status_NotAfter : option Time;
  Status_RenewalTime : option Time
}.
End Certificate.

(** [cmapiv1alpha2.Issuer]. *)
Module Issuer.
Record t := mk { Name : string; Status_Conditions : list Condition }.
End Issuer.

(** [cmapiv1alpha2.ClusterIssuer]. *)
Module ClusterIssuer.
Record t := mk { Name : string; Status_Conditions : list Condition }.
End ClusterIssuer.

(** [cmapiv1alpha2.CertificateRequest]. *)
Module CertificateRequest.
Record t := mk {
  Name : string;
  Namespace : string;
  Status_Conditions : list Condition
}.
End CertificateRequest.

(** [v1.Secret]. *)
Module Secret.
Record t := mk { Name : string; Data : gmap string (list byte) }.
End Secret.

(** [x509.Certificate]. [SerialNumber] is a [*big.Int]. *)
Module x509.
Record Certificate := mkCertificate {
  Issuer_Country : list string;
  Issuer_Organization : list string;
  Issuer_CommonName : string;
  KeyUsage : Z;
  ExtKeyUsage : list Z;
  PublicKeyAlgorithm : Z;
  SignatureAlgorithm : Z;
  SubjectKeyId : list byte;
  AuthorityKeyId : list byte;
  SerialNumber : option Z
}.
End x509.

(** ** The sub-reports and their renderings *)

(** The conditions block of [IssuerStatus.String] and [CRStatus.String]:
    the loop appends one formatted line per condition, and the literal
    line stands in when the result is empty. *)
Definition conditionMsg (conditions : list Condition) : string :=
  let conditionMsg :=
    fold_left
      (fun conditionMsg con =>
         conditionMsg +:+
         ("  " +:+ Type_ con +:+ ": " +:+ Status con +:+ ", Reason: " +:+ Reason con
          +:+ ", Message: " +:+ Message con +:+ nl))
      conditions "" in
  if String.eqb conditionMsg "" then "  No Conditions set" +:+ nl else conditionMsg.

Module IssuerStatus.

Record t := mk {
  Error : option error;
  Name : string;
  Kind : string;
  Conditions : list Condition
}.

Definition String (issuerStatus : t) : string :=
  match Error issuerStatus with
  | Some err => error_Error err
  | None =>
      "Issuer:" +:+ nl +:+
      "  Name: " +:+ Name issuerStatus +:+ nl +:+
      "  Kind: " +:+ Kind issuerStatus +:+ nl +:+
      "  Conditions:" +:+ nl +:+
      "  " +:+ conditionMsg (Conditions issuerStatus)
  end.

End IssuerStatus.

Module SecretStatus.

Record t := mk {
  Error : option error;
  Name : string;
  IssuerCountry : list string;
  IssuerOrganisation : list string;
  IssuerCommonName : string;
  KeyUsage : Z;
  ExtKeyUsage : list Z;
  PublicKeyAlgorithm : Z;
  SignatureAlgorithm : Z;
  SubjectKeyId : list byte;
  AuthorityKeyId : list byte;
  SerialNumber : option Z
}.

Section Render.

(** The [String] methods of [x509.PublicKeyAlgorithm] and
    [x509.SignatureAlgorithm], which [%s] calls. *)
Variable PublicKeyAlgorithm_String : Z -> string.
Variable SignatureAlgorithm_String : Z -> string.

(** [None] is the nil-pointer panic of [SerialNumber.Bytes()] on a report
    without an error and without a serial number. *)
Definition String (secretStatus : t) : option string :=
  match Error secretStatus with
  | Some err => Some (error_Error err)
  | None =>
      let '(extKeyUsageString, err) := extKeyUsageToString (ExtKeyUsage secretStatus) in
      let extKeyUsageString :=
        match err with
        | Some err => error_Error err
        | None => extKeyUsageString
        end in
      match SerialNumber secretStatus with
      | None => None
      | Some serialNumber =>
          Some
            ("Secret:" +:+ nl +:+
             "  Name: " +:+ Name secretStatus +:+ nl +:+
             "  Issuer Country: " +:+ strings_Join (IssuerCountry secretStatus) ", " +:+ nl +:+
             "  Issuer Organisation: " +:+ strings_Join (IssuerOrganisation secretStatus) ", " +:+ nl +:+
             "  Issuer Common Name: " +:+ IssuerCommonName secretStatus +:+ nl +:+
             "  Key Usage: " +:+ keyUsageToString (KeyUsage secretStatus) +:+ nl +:+
             "  Extended Key Usages: " +:+ extKeyUsageString +:+ nl +:+
             "  Public Key Algorithm: " +:+ PublicKeyAlgorithm_String (PublicKeyAlgorithm secretStatus) +:+ nl +:+
             "  Signature Algorithm: " +:+ SignatureAlgorithm_String (SignatureAlgorithm secretStatus) +:+ nl +:+
             "  Subject Key ID: " +:+ hex_EncodeToString (SubjectKeyId secretStatus) +:+ nl +:+
             "  Authority Key ID: " +:+ hex_EncodeToString (AuthorityKeyId secretStatus) +:+ nl +:+
             "  Serial Number: " +:+ hex_EncodeToString (big_Int_Bytes serialNumber) +:+ nl)
      end
  end.

End Render.

End SecretStatus.

(** A computation that writes to the standard output: its value and the
    text it has written. *)
Definition Stdout (A : Type) : Type := A * string.

Definition ret {A} (a : A) : Stdout A := (a, "").

Definition bind {A B} (m : Stdout A) (f : A -> Stdout B) : Stdout B :=
  let '(a, out1) := m in
  let '(b, out2) := f a in
  (b, out1 +:+ out2).

Notation "'let*' x ':=' m 'in' k" := (bind m (fun x => k))
  (at level 10, x name, m at level 100, k at level 200).

(** [fmt.Println] of a byte slice. *)
Definition fmt_Println (bs : list byte) : Stdout unit := (tt, fmt_Println_bytes bs).

Definition bytes_of_string (s : string) : list byte :=
  map byte_of_ascii (list_ascii_of_string s).

Module CRStatus.

Record t := mk {
  Error : option error;
  Name : string;
  Namespace : string;
  Conditions : list Condition;
  Events : option EventList
}.

Section Render.

(** What [util.DescribeEvents] at level 1, through the prefix writer and
    the flushed tab writer, leaves in the buffer for an event list. The
    function is part of package [util], outside this file. *)
Variable DescribeEvents : option EventList -> string.

Definition String (crStatus : t) : Stdout string :=
  match Error crStatus with
  | Some err => ret (error_Error err)
  | None =>
      let infos :=
        nl +:+
        "  Name: " +:+ Name crStatus +:+ nl +:+
        "  Namespace: " +:+ Namespace crStatus +:+ nl +:+
        "  Conditions:" +:+ nl +:+
        "  " +:+ conditionMsg (Conditions crStatus) in
      let infos := "CertificateRequest:" +:+ infos in
      let buf := DescribeEvents (Events crStatus) in
      let* _ := fmt_Println (bytes_of_string buf) in
      let infos := infos +:+ buf in
      ret infos
  end.

End Render.

End CRStatus.

(** ** The report and its builder *)

Module CertificateStatus.
Record t := mk {
  Name : string;
  Namespace : string;
  CreationTime : Time;
  Conditions : list Condition;
  DNSNames : list string;
  Events : option EventList;
  NotBefore : option Time;
  NotAfter : option Time;
  RenewalTime : option Time;
  IssuerKind : string;
  IssuerStatus : option IssuerStatus.t;
  SecretStatus : option SecretStatus.t;
  CRStatus : option CRStatus.t
}.
End CertificateStatus.

Module CertificateStatusBuilder.

Record t := mk {
  Name : string;
  Namespace : string;
  CreationTime : Time;
  Conditions : list Condition;
  DNSNames : list string;
  Events : option EventList;
  NotBefore : option Time;
  NotAfter : option Time;
  RenewalTime : option Time;
  IssuerKind : string;
  IssuerStatus : option IssuerStatus.t;
  SecretStatus : option SecretStatus.t;
  CRStatus : option CRStatus.t
}.

(** The assignments [builder.F = v] of the methods. *)
Definition set_Events (v : option EventList) (b : t) : t :=
  mk (Name b) (Namespace b) (CreationTime b) (Conditions b) (DNSNames b) v
     (NotBefore b) (NotAfter b) (RenewalTime b) (IssuerKind b)
     (IssuerStatus b) (SecretStatus b) (CRStatus b).

Definition set_IssuerKind (v : string) (b : t) : t :=
  mk (Name b) (Namespace b) (CreationTime b) (Conditions b) (DNSNames b) (Events b)
     (NotBefore b) (NotAfter b) (RenewalTime b) v
     (IssuerStatus b) (SecretStatus b) (CRStatus b).

Definition set_IssuerStatus (v : option IssuerStatus.t) (b : t) : t :=
  mk (Name b) (Namespace b) (CreationTime b) (Conditions b) (DNSNames b) (Events b)
     (NotBefore b) (NotAfter b) (RenewalTime b) (IssuerKind b)
     v (SecretStatus b) (CRStatus b).

Definition set_SecretStatus (v : option SecretStatus.t) (b : t) : t :=
  mk (Name b) (Namespace b) (CreationTime b) (Conditions b) (DNSNames b) (Events b)
     (NotBefore b) (NotAfter b) (RenewalTime b) (IssuerKind b)
     (IssuerStatus b) v (CRStatus b).

Definition set_CRStatus (v : option CRStatus.t) (b : t) : t :=
  mk (Name b) (Namespace b) (CreationTime b) (Conditions b) (DNSNames b) (Events b)
     (NotBefore b) (NotAfter b) (RenewalTime b) (IssuerKind b)
     (IssuerStatus b) (SecretStatus b) v.

End CertificateStatusBuilder.

Import CertificateStatusBuilder (set_Events, set_IssuerKind, set_IssuerStatus,
  set_SecretStatus, set_CRStatus).

(** The composite literals [&IssuerStatus{Error: err}] and the like: the
    fields that are not named hold their zero values. *)
Definition IssuerStatus_failed (err : error) : IssuerStatus.t :=
  IssuerStatus.mk (Some err) "" "" [].

Definition SecretStatus_failed (err : error) : SecretStatus.t :=
  SecretStatus.mk (Some err) "" [] [] "" 0 [] 0 0 [] [] None.

Definition CRStatus_failed (err : error) : CRStatus.t :=
  CRStatus.mk (Some err) "" "" [] None.

Definition newCertificateStatusBuilderFromCert (crt : option Certificate.t)
  : option CertificateStatusBuilder.t :=
  match crt with
  | None => None
  | Some crt =>
      Some (CertificateStatusBuilder.mk
              (Certificate.Name crt) (Certificate.Namespace crt)
              (Certificate.CreationTimestamp crt)
              (Certificate.Status_Conditions crt) (Certificate.Spec_DNSNames crt)
              None
              (Certificate.Status_NotBefore crt) (Certificate.Status_NotAfter crt)
              (Certificate.Status_RenewalTime crt)
              "" None None None)
  end.

Definition withEvents (builder : CertificateStatusBuilder.t) (events : option EventList)
  : CertificateStatusBuilder.t :=
  set_Events events builder.

Definition withIssuerKind (builder : CertificateStatusBuilder.t) (kind : string)
  : CertificateStatusBuilder.t :=
  set_IssuerKind kind builder.

Definition withIssuer (builder : CertificateStatusBuilder.t)
  (issuer : option Issuer.t) (err : option error) : CertificateStatusBuilder.t :=
  match err with
  | Some err => set_IssuerStatus (Some (IssuerStatus_failed err)) builder
  | None =>
      match issuer with
      | None => builder
      | Some issuer =>
          set_IssuerStatus
            (Some (IssuerStatus.mk None (Issuer.Name issuer) "Issuer"
                     (Issuer.Status_Conditions issuer)))
            builder
      end
  end.

Definition withClusterIssuer (builder : CertificateStatusBuilder.t)
  (clusterIssuer : option ClusterIssuer.t) (err : option error)
  : CertificateStatusBuilder.t :=
  match err with
  | Some err => set_IssuerStatus (Some (IssuerStatus_failed err)) builder
  | None =>
      match clusterIssuer with
      | None => builder
      | Some clusterIssuer =>
          set_IssuerStatus
            (Some (IssuerStatus.mk None (ClusterIssuer.Name clusterIssuer) "ClusterIssuer"
                     (ClusterIssuer.Status_Conditions clusterIssuer)))
            builder
      end
  end.

Section WithSecret.

(** The table of printable runes above U+00FF that [%q] consults. *)
Variable isPrintWide : Z -> bool.

(** [pki.DecodeX509CertificateBytes], of package [pki] outside this file:
    the parsed certificate or the error of the parse. *)
Variable DecodeX509CertificateBytes : list byte -> x509.Certificate + error.

Definition withSecret (builder : CertificateStatusBuilder.t)
  (secret : option Secret.t) (err : option error) : CertificateStatusBuilder.t :=
  match err with
  | Some err => set_SecretStatus (Some (SecretStatus_failed err)) builder
  | None =>
      match secret with
      | None => builder
      | Some secret =>
          let certData := default [] (Secret.Data secret !! "tls.crt") in
          if (length certData =? 0)%nat then
            set_SecretStatus
              (Some (SecretStatus_failed
                       (errorString
                          ("error: 'tls.crt' of Secret "
                           +:+ strconv_Quote isPrintWide (Secret.Name secret)
                           +:+ " is not set" +:+ nl))))
              builder
          else
            match DecodeX509CertificateBytes certData with
            | inr err =>
                set_SecretStatus
                  (Some (SecretStatus_failed
                           (errorString
                              ("error when parsing 'tls.crt' of Secret "
                               +:+ strconv_Quote isPrintWide (Secret.Name secret)
                               +:+ ": " +:+ error_Error err +:+ nl))))
                  builder
            | inl x509Cert =>
                set_SecretStatus
                  (Some (SecretStatus.mk None (Secret.Name secret)
                           (x509.Issuer_Country x509Cert)
                           (x509.Issuer_Organization x509Cert)
                           (x509.Issuer_CommonName x509Cert)
                           (x509.KeyUsage x509Cert)
                           (x509.ExtKeyUsage x509Cert)
                           (x509.PublicKeyAlgorithm x509Cert)
                           (x509.SignatureAlgorithm x509Cert)
                           (x509.SubjectKeyId x509Cert)
                           (x509.AuthorityKeyId x509Cert)
                           (x509.SerialNumber x509Cert)))
                  builder
            end
      end
  end.

End WithSecret.

Definition withCR (builder : CertificateStatusBuilder.t)
  (req : option CertificateRequest.t) (events : option EventList) (err : option error)
  : CertificateStatusBuilder.t :=
  match err with
  | Some err => set_CRStatus (Some (CRStatus_failed err)) builder
  | None =>
      match req with
      | None => builder
      | Some req =>
          let builder := set_Events events builder in
          set_CRStatus
            (Some (CRStatus.mk None (CertificateRequest.Name req)
                     (CertificateRequest.Namespace req)
                     (CertificateRequest.Status_Conditions req) None))
            builder
      end
  end.

Definition build (builder : CertificateStatusBuilder.t) : CertificateStatus.t :=
  CertificateStatus.mk
    (CertificateStatusBuilder.Name builder) (CertificateStatusBuilder.Namespace builder)
    (CertificateStatusBuilder.CreationTime builder)
    (CertificateStatusBuilder.Conditions builder) (CertificateStatusBuilder.DNSNames builder)
    (CertificateStatusBuilder.Events builder)
    (CertificateStatusBuilder.NotBefore builder) (CertificateStatusBuilder.NotAfter builder)
    (CertificateStatusBuilder.RenewalTime builder)
    (CertificateStatusBuilder.IssuerKind builder)
    (CertificateStatusBuilder.IssuerStatus builder)
    (CertificateStatusBuilder.SecretStatus builder)
    (CertificateStatusBuilder.CRStatus builder).

(** Two builder states that agree on every field other than the named
    sub-report. *)
Definition same_top_level (b b' : CertificateStatusBuilder.t) : Prop :=
  CertificateStatusBuilder.Name b' = CertificateStatusBuilder.Name b /\
  CertificateStatusBuilder.Namespace b' = CertificateStatusBuilder.Namespace b /\
  CertificateStatusBuilder.CreationTime b' = CertificateStatusBuilder.CreationTime b /\
  CertificateStatusBuilder.Conditions b' = CertificateStatusBuilder.Conditions b /\
  CertificateStatusBuilder.DNSNames b' = CertificateStatusBuilder.DNSNames b /\
  CertificateStatusBuilder.NotBefore b' = CertificateStatusBuilder.NotBefore b /\
  CertificateStatusBuilder.NotAfter b' = CertificateStatusBuilder.NotAfter b /\
  CertificateStatusBuilder.RenewalTime b' = CertificateStatusBuilder.RenewalTime b /\
  CertificateStatusBuilder.IssuerKind b' = CertificateStatusBuilder.IssuerKind b.

Definition only_IssuerStatus_differs (b b' : CertificateStatusBuilder.t) : Prop :=
  same_top_level b b' /\
  CertificateStatusBuilder.Events b' = CertificateStatusBuilder.Events b /\
  CertificateStatusBuilder.SecretStatus b' = CertificateStatusBuilder.SecretStatus b /\
  CertificateStatusBuilder.CRStatus b' = CertificateStatusBuilder.CRStatus b.

Definition only_SecretStatus_differs (b b' : CertificateStatusBuilder.t) : Prop :=
  same_top_level b b' /\
  CertificateStatusBuilder.Events b' = CertificateStatusBuilder.Events b /\
  CertificateStatusBuilder.IssuerStatus b' = CertificateStatusBuilder.IssuerStatus b /\
  CertificateStatusBuilder.CRStatus b' = CertificateStatusBuilder.CRStatus b.

Definition only_CRStatus_differs (b b' : CertificateStatusBuilder.t) : Prop :=
  same_top_level b b' /\
  CertificateStatusBuilder.Events b' = CertificateStatusBuilder.Events b /\
  CertificateStatusBuilder.IssuerStatus b' = CertificateStatusBuilder.IssuerStatus b /\
  CertificateStatusBuilder.SecretStatus b' = CertificateStatusBuilder.SecretStatus b.

(** As [only_CRStatus_differs], the event list being free as well. *)
Definition only_CRStatus_and_Events_differ (b b' : CertificateStatusBuilder.t) : Prop :=
  same_top_level b b' /\
  CertificateStatusBuilder.IssuerStatus b' = CertificateStatusBuilder.IssuerStatus b /\
  CertificateStatusBuilder.SecretStatus b' = CertificateStatusBuilder.SecretStatus b.

(** ** Vocabulary of the statements *)

(** One condition as the specification renders it, and a list of them in
    the order of the list. *)
Definition conditionLine (con : Condition) : string :=
  "  " +:+ Type_ con +:+ ": " +:+ Status con +:+ ", Reason: " +:+ Reason con
  +:+ ", Message: " +:+ Message con +:+ nl.

Fixpoint conditionLines (conditions : list Condition) : string :=
  match conditions with
  | [] => ""
  | con :: rest => conditionLine con +:+ conditionLines rest
  end.

(** A digit of lowercase hexadecimal. *)
Definition lowerHexChar (c : ascii) : bool :=
  let n := Z_of_ascii c in
  ((48 <=? n) && (n <=? 57)) || ((97 <=? n) && (n <=? 102)).

Fixpoint lowerHexString (s : string) : bool :=
  match s with
  | EmptyString => true
  | String c s' => lowerHexChar c && lowerHexString s'
  end.

Definition Zsum (vals : list Z) : Z := fold_right Z.add 0 vals.

(** The double quote, as a string. *)
Definition dquote : string := String "034" "".

(** A builder to run the methods on. *)
Definition exampleBuilder : CertificateStatusBuilder.t :=
  CertificateStatusBuilder.mk "example" "default" 0 [] [] None None None None ""
    None None None.

(** ** Vocabulary of the further properties *)

(** The first loop of [keyUsageToString] without its [break]. *)
Fixpoint keyUsageLoopNoBreak (vals : list Z) (usageInt : Z) (usageStrings : list string)
  : list string :=
  match vals with
  | [] => usageStrings
  | val :: rest =>
      if usageInt >=? val
      then keyUsageLoopNoBreak rest (usageInt - val)
             (usageStrings ++ [default "" (keyUsageToStringMap !! val)])
      else keyUsageLoopNoBreak rest usageInt usageStrings
  end.

(** The value of a hexadecimal digit of [hextable]. *)
Definition unhexdigit (c : ascii) : Z :=
  let n := Z_of_ascii c in
  if n <? 58 then n - 48 else n - 87.

(** A string that ends with a newline. *)
Definition endsWithNewline (s : string) : Prop := exists body, s = body +:+ nl.

(** One call of a method of the builder, with its arguments. *)
Inductive call : Type :=
| WithEvents (events : option EventList)
| WithIssuerKind (kind : string)
| WithIssuer (issuer : option Issuer.t) (err : option error)
| WithClusterIssuer (clusterIssuer : option ClusterIssuer.t) (err : option error)
| WithSecret (secret : option Secret.t) (err : option error)
| WithCR (req : option CertificateRequest.t) (events : option EventList)
    (err : option error).

Section Calls.

Variable isPrintWide : Z -> bool.
Variable DecodeX509CertificateBytes : list byte -> x509.Certificate + error.

Definition apply_call (builder : CertificateStatusBuilder.t) (c : call)
  : CertificateStatusBuilder.t :=
  match c with
  | WithEvents events => withEvents builder events
  | WithIssuerKind kind => withIssuerKind builder kind
  | WithIssuer issuer err => withIssuer builder issuer err
  | WithClusterIssuer clusterIssuer err => withClusterIssuer builder clusterIssuer err
  | WithSecret secret err =>
      withSecret isPrintWide DecodeX509CertificateBytes builder secret err
  | WithCR req events err => withCR builder req events err
  end.

(** A chain of calls [builder.c1(...).c2(...)...], the first call first. *)
Definition run (calls : list call) (builder : CertificateStatusBuilder.t)
  : CertificateStatusBuilder.t :=
  fold_left apply_call calls builder.

End Calls.

(** The fields of the builder that come from the certificate. *)
Definition same_identity (b b' : CertificateStatusBuilder.t) : Prop :=
  CertificateStatusBuilder.Name b' = CertificateStatusBuilder.Name b /\
  CertificateStatusBuilder.Namespace b' = CertificateStatusBuilder.Namespace b /\
  CertificateStatusBuilder.CreationTime b' = CertificateStatusBuilder.CreationTime b /\
  CertificateStatusBuilder.Conditions b' = CertificateStatusBuilder.Conditions b /\
  CertificateStatusBuilder.DNSNames b' = CertificateStatusBuilder.DNSNames b /\
  CertificateStatusBuilder.NotBefore b' = CertificateStatusBuilder.NotBefore b /\
  CertificateStatusBuilder.NotAfter b' = CertificateStatusBuilder.NotAfter b /\
  CertificateStatusBuilder.RenewalTime b' = CertificateStatusBuilder.RenewalTime b.

(** The shape of the sub-reports the builder makes: a failed one holds the
    error and zero values; an ok issuer report has one of the two kinds; a
    request report has no events. *)
Definition IssuerStatus_shape (s : IssuerStatus.t) : Prop :=
  match IssuerStatus.Error s with
  | Some err => s = IssuerStatus_failed err
  | None => IssuerStatus.Kind s = "Issuer" \/ IssuerStatus.Kind s = "ClusterIssuer"
  end.

Definition SecretStatus_shape (s : SecretStatus.t) : Prop :=
  match SecretStatus.Error s with
  | Some err => s = SecretStatus_failed err
  | None => True
  end.

Definition CRStatus_shape (s : CRStatus.t) : Prop :=
  CRStatus.Events s = None /\
  match CRStatus.Error s with
  | Some err => s = CRStatus_failed err
  | None => True
  end.

Definition builder_shape (b : CertificateStatusBuilder.t) : Prop :=
  (forall s, CertificateStatusBuilder.IssuerStatus b = Some s -> IssuerStatus_shape s) /\
  (forall s, CertificateStatusBuilder.SecretStatus b = Some s -> SecretStatus_shape s) /\
  (forall s, CertificateStatusBuilder.CRStatus b = Some s -> CRStatus_shape s).

(** * Properties *)

(** ** Strings *)

Lemma app_String (x : ascii) (a b : string) : String x a +:+ b = String x (a +:+ b).
Proof. reflexivity. Qed.

Lemma app_Empty (b : string) : "" +:+ b = b.
Proof. reflexivity. Qed.

Lemma string_app_assoc (a b c : string) : (a +:+ b) +:+ c = a +:+ (b +:+ c).
Proof.
  induction a as [|x a IH]; [reflexivity|].
  now rewrite !app_String, IH.
Qed.

Lemma string_app_nil_r (a : string) : a +:+ "" = a.
Proof.
  induction a as [|x a IH]; [reflexivity|].
  now rewrite app_String, IH.
Qed.

Lemma prefix_app (a b : string) : String.prefix a (a +:+ b) = true.
Proof.
  induction a as [|x a IH].
  - now destruct b.
  - rewrite app_String. simpl. destruct (ascii_dec x x); [exact IH | congruence].
Qed.

Lemma containsb_complete (s substr : string) :
  strings_Contains s substr -> containsb s substr = true.
Proof.
  intros (pre & post & ->). induction pre as [|x pre IH].
  - rewrite app_Empty. destruct substr as [|y substr]; [now destruct post|].
    rewrite app_String. cbn [containsb]. rewrite <- app_String, prefix_app.
    reflexivity.
  - rewrite app_String. cbn [containsb]. rewrite IH. apply orb_true_r.
Qed.

(** ** The key-usage decoder *)

(** A remainder above the sum of the values that are left takes them all. *)

Lemma keyUsageLoop_exceeds (vals : list Z) :
  forall usageInt usageStrings,
    Forall (fun val => 0 < val) vals ->
    Zsum vals < usageInt ->
    keyUsageLoop vals usageInt usageStrings
    = usageStrings ++ map (fun val => default "" (keyUsageToStringMap !! val)) vals.
Proof.
  induction vals as [|val rest IH]; intros usageInt usageStrings Hpos Hsum; simpl.
  - now rewrite app_nil_r.
  - inversion Hpos as [|? ? Hval Hrest]; subst. simpl in Hsum.
    assert (0 <= Zsum rest).
    { clear -Hrest. induction Hrest; simpl; lia. }
    destruct (Z.geb_spec usageInt val) as [_|Hlt]; [|lia].
    destruct (Z.eqb_spec (usageInt - val) 0) as [H0|_]; [lia|].
    rewrite IH by (trivial; lia). now rewrite <- app_assoc.
Qed.

Lemma keyUsageToString_saturates (b : Z) :
  511 < b -> keyUsageToString b = keyUsageToString 511.
Proof.
  intros Hb. unfold keyUsageToString.
  rewrite keyUsageLoop_exceeds.
  - reflexivity.
  - unfold keyUsagePossibleValues. repeat constructor.
  - exact Hb.
Qed.


(** The second loop of [keyUsageToString] reverses the slice. *)

Lemma swap_length (l : list string) (i opp : nat) : length (swap l i opp) = length l.
Proof.
  unfold swap. destruct (l !! i), (l !! opp); trivial.
  now rewrite !length_insert.
Qed.

Lemma swap_lookup (l : list string) (i opp k : nat) :
  (i < length l)%nat -> (opp < length l)%nat ->
  swap l i opp !! k
  = if decide (k = i) then l !! opp else if decide (k = opp) then l !! i else l !! k.
Proof.
  intros Hi Hopp. unfold swap.
  destruct (lookup_lt_is_Some_2 l i Hi) as [a Ha].
  destruct (lookup_lt_is_Some_2 l opp Hopp) as [b Hb].
  rewrite Ha, Hb.
  destruct (decide (k = i)) as [->|Hki].
  - rewrite list_lookup_insert_eq; [reflexivity|]. now rewrite length_insert.
  - rewrite list_lookup_insert_ne by congruence.
    destruct (decide (k = opp)) as [->|Hko].
    + now rewrite list_lookup_insert_eq.
    + now rewrite list_lookup_insert_ne by congruence.
Qed.

Lemma reverseFrom_length (count : nat) :
  forall i l, length (reverseFrom count i l) = length l.
Proof.
  induction count as [|count IH]; intros i l; simpl; [reflexivity|].
  now rewrite IH, swap_length.
Qed.

Lemma reverseFrom_lookup (count : nat) :
  forall i (l : list string) k,
    (2 * (i + count) <= length l)%nat ->
    reverseFrom count i l !! k
    = if decide ((i <= k < i + count)%nat \/ (i <= length l - 1 - k < i + count)%nat /\ (k < length l)%nat)
      then l !! (length l - 1 - k)%nat else l !! k.
Proof.
  induction count as [|count IH]; intros i l k Hlen; simpl.
  - destruct (decide _) as [H|H]; [lia | reflexivity].
  - rewrite IH by (rewrite swap_length; lia).
    rewrite swap_length, !swap_lookup by lia.
    repeat destruct (decide _); try reflexivity; try lia;
      try (f_equal; lia).
Qed.

Lemma reverseInPlace_reverse (l : list string) : reverseInPlace l = reverse l.
Proof.
  apply list_eq. intros k. unfold reverseInPlace.
  pose proof (Nat.div_mod_eq (length l) 2) as Hdiv.
  pose proof (Nat.mod_upper_bound (length l) 2 ltac:(lia)) as Hmod.
  rewrite reverseFrom_lookup by lia.
  destruct (decide (k < length l)%nat) as [Hk|Hk].
  - rewrite reverse_lookup by exact Hk.
    destruct (decide _) as [H|H]; f_equal; lia.
  - rewrite (lookup_ge_None_2 (reverse l)) by (rewrite length_reverse; lia).
    destruct (decide _) as [H|H]; [lia|].
    apply lookup_ge_None_2. lia.
Qed.

Lemma keyUsageToString_low (n : nat) :
  (n < 512)%nat -> keyUsageToString (Z.of_nat n) = keyUsageToLabels (Z.of_nat n).
Proof.
  intros Hn.
  assert (Hall : forallb (fun n => String.eqb (keyUsageToString (Z.of_nat n))
                                      (keyUsageToLabels (Z.of_nat n)))
                   (seq 0 512) = true) by (vm_compute; reflexivity).
  rewrite forallb_forall in Hall.
  apply String.eqb_eq, Hall, in_seq. lia.
Qed.

(** C1, as amended: for every key-usage bitset [b] from 0 to 511,
    [keyUsageToString] renders the labels of the bits that are set in [b],
    in ascending order of the bits; a bitset of 512 or more is not reduced
    to its low nine bits: the subtraction loop then collects all nine
    labels, so it renders as 511 does. *)
Theorem keyUsageToString_decodes_saturating (b : Z) :
  0 <= b -> keyUsageToString b = keyUsageToLabels (Z.min b 511).
Proof.
  intros Hb. destruct (Z.le_gt_cases b 511) as [Hle|Hgt].
  - rewrite Z.min_l by exact Hle.
    rewrite <- (Z2Nat.id b Hb). apply keyUsageToString_low. lia.
  - rewrite Z.min_r by lia. rewrite keyUsageToString_saturates by lia.
    reflexivity.
Qed.

Lemma keyUsageToString_decodes_saturating_witness :
  0 <= 5 /\ keyUsageToString 5 = "Digital Signature, Key Encipherment".
Proof.
  split; [lia|]. exact (keyUsageToString_decodes_saturating 5 ltac:(lia)).
Defined.

(** C1 as stated fails at 512: its low nine bits are all clear, and yet it
    renders the nine labels. *)
Lemma keyUsageToString_high_bit_not_ignored :
  0 <= 512 /\ keyUsageToString 512 <> keyUsageToString (Z.land 512 511).
Proof. split; [lia|]. vm_compute. discriminate. Qed.

(** C7: [keyUsageToString] renders 0 as the empty string, 1 as
    "Digital Signature", 3 as "Digital Signature, Content Commitment" (the
    loop collects the label of the larger bit first and the reversal puts
    the smaller one in front) and 256 as "Decipher Only". *)
Theorem keyUsageToString_examples :
  keyUsageToString 0 = "" /\
  keyUsageToString 1 = "Digital Signature" /\
  keyUsageLoop keyUsagePossibleValues 3 [] = ["Content Commitment"; "Digital Signature"] /\
  keyUsageToString 3 = "Digital Signature, Content Commitment" /\
  keyUsageToString 256 = "Decipher Only" /\
  (forall usageStrings, reverseInPlace usageStrings = reverse usageStrings).
Proof.
  repeat split; try reflexivity. apply reverseInPlace_reverse.
Qed.

(** ** The extended-key-usage decoder *)

(** Decides the two comparisons of the guard of [extKeyUsageLoop] on
    [extUsage] and closes the cases the context rules out. *)
Ltac extUsage_guard extUsage :=
  cbn [extKeyUsageLoop];
  destruct (Z.ltb_spec extUsage 0);
  destruct (Z.geb_spec extUsage (Z.of_nat (length extKeyUsageStringValues)))
    as [Hguard|Hguard];
  simpl in Hguard; cbn [orb]; try lia.

Lemma extKeyUsageLoop_known (extUsages : list Z) :
  forall extUsageStrings,
    Forall extKeyUsageKnown extUsages ->
    extKeyUsageLoop extUsages extUsageStrings
    = (strings_Join (extUsageStrings ++ map extKeyUsageLabel extUsages) ", ", None).
Proof.
  induction extUsages as [|extUsage rest IH]; intros acc Hknown.
  - simpl. now rewrite app_nil_r.
  - inversion Hknown as [|? ? [Hlo Hhi] Hrest]; subst.
    extUsage_guard extUsage.
    rewrite IH by exact Hrest.
    now rewrite <- app_assoc.
Qed.

Lemma extKeyUsageLoop_unknown (pre : list Z) :
  forall extUsageStrings code post,
    Forall extKeyUsageKnown pre ->
    ~ extKeyUsageKnown code ->
    extKeyUsageLoop (pre ++ code :: post) extUsageStrings
    = ("", Some (extKeyUsageError code)).
Proof.
  induction pre as [|extUsage rest IH]; intros acc code post Hknown Hcode.
  - cbn [app]. unfold extKeyUsageKnown in Hcode.
    extUsage_guard code; reflexivity.
  - inversion Hknown as [|? ? [Hlo Hhi] Hrest]; subst.
    cbn [app]. extUsage_guard extUsage.
    now apply IH.
Qed.

(** C2: [extKeyUsageToString] maps every code from 0 to 13 to its label
    in the table of 14 entries, keeps the order of the input and joins the
    labels with ", "; for an input with a code outside of 0..13 it returns
    the empty string together with the error that names the first such
    code. *)
Theorem extKeyUsageToString_labels_or_first_error (codes : list Z) :
  (length extKeyUsageStringValues = 14%nat /\
   map extKeyUsageLabel [0; 1; 2; 3; 4; 5; 6; 7; 8; 9; 10; 11; 12; 13]
   = extKeyUsageStringValues) /\
  (Forall extKeyUsageKnown codes ->
   extKeyUsageToString codes
   = (strings_Join (map extKeyUsageLabel codes) ", ", None)) /\
  (forall pre code post,
     codes = pre ++ code :: post ->
     Forall extKeyUsageKnown pre ->
     ~ extKeyUsageKnown code ->
     extKeyUsageToString codes
     = ("", Some (errorString
          ("error when converting Extended Usages to string: encountered unknown Extended Usage with code "
           +:+ fmt_d code)))).
Proof.
  split; [split; reflexivity|]. split.
  - intros Hknown. unfold extKeyUsageToString.
    now rewrite extKeyUsageLoop_known.
  - intros pre code post -> Hpre Hcode. unfold extKeyUsageToString.
    now rewrite extKeyUsageLoop_unknown.
Qed.

Lemma extKeyUsageToString_labels_or_first_error_witness :
  extKeyUsageToString [0; 1] = ("Any, Server Authentication", None) /\
  extKeyUsageToString [14]
  = ("", Some (errorString
       "error when converting Extended Usages to string: encountered unknown Extended Usage with code 14")) /\
  extKeyUsageToString [-1]
  = ("", Some (errorString
       "error when converting Extended Usages to string: encountered unknown Extended Usage with code -1")) /\
  extKeyUsageToString [3; -1; 2; 20]
  = ("", Some (errorString
       "error when converting Extended Usages to string: encountered unknown Extended Usage with code -1")).
Proof.
  split; [|split; [|split]].
  - apply (proj1 (proj2 (extKeyUsageToString_labels_or_first_error [0; 1]))).
    repeat constructor; unfold extKeyUsageKnown; lia.
  - apply (proj2 (proj2 (extKeyUsageToString_labels_or_first_error [14])) [] 14 []).
    + reflexivity.
    + constructor.
    + unfold extKeyUsageKnown; lia.
  - apply (proj2 (proj2 (extKeyUsageToString_labels_or_first_error [-1])) [] (-1) []).
    + reflexivity.
    + constructor.
    + unfold extKeyUsageKnown; lia.
  - apply (proj2 (proj2 (extKeyUsageToString_labels_or_first_error [3; -1; 2; 20]))
             [3] (-1) [2; 20]).
    + reflexivity.
    + repeat constructor; unfold extKeyUsageKnown; lia.
    + unfold extKeyUsageKnown; lia.
Defined.

(** ** The builder *)

Section Builder.

Variable isPrintWide : Z -> bool.
Variable DecodeX509CertificateBytes : list byte -> x509.Certificate + error.

(** C3: a [with*] call with a non-nil error sets its own sub-report, and
    only that, to the failed state that carries this very error; every other
    sub-report and every other field of the builder keeps its value.
    [withIssuer] and [withClusterIssuer] touch [IssuerStatus] only,
    [withSecret] touches [SecretStatus] only and [withCR] touches [CRStatus]
    only. *)
Theorem with_error_sets_only_own_subreport
  (builder : CertificateStatusBuilder.t) (err : error)
  (issuer : option Issuer.t) (clusterIssuer : option ClusterIssuer.t)
  (secret : option Secret.t)
  (req : option CertificateRequest.t) (events : option EventList) :
  (let b' := withIssuer builder issuer (Some err) in
   CertificateStatusBuilder.IssuerStatus b' = Some (IssuerStatus_failed err) /\
   IssuerStatus.Error (IssuerStatus_failed err) = Some err /\
   only_IssuerStatus_differs builder b') /\
  (let b' := withClusterIssuer builder clusterIssuer (Some err) in
   CertificateStatusBuilder.IssuerStatus b' = Some (IssuerStatus_failed err) /\
   only_IssuerStatus_differs builder b') /\
  (let b' := withSecret isPrintWide DecodeX509CertificateBytes builder secret (Some err) in
   CertificateStatusBuilder.SecretStatus b' = Some (SecretStatus_failed err) /\
   SecretStatus.Error (SecretStatus_failed err) = Some err /\
   only_SecretStatus_differs builder b') /\
  (let b' := withCR builder req events (Some err) in
   CertificateStatusBuilder.CRStatus b' = Some (CRStatus_failed err) /\
   CRStatus.Error (CRStatus_failed err) = Some err /\
   only_CRStatus_differs builder b').
Proof.
  repeat split.
Qed.

(** C6: [withCR] with a nil error and a request sets [CRStatus] to the ok
    state of the request's name, namespace and conditions and overwrites
    the [Events] of the builder with the events it is given; with a non-nil
    error, or with a nil request, [Events] keeps its value. *)
Theorem withCR_events
  (builder : CertificateStatusBuilder.t) (req : CertificateRequest.t)
  (events : option EventList) (err : error) (req' : option CertificateRequest.t) :
  (let b' := withCR builder (Some req) events None in
   CertificateStatusBuilder.CRStatus b'
   = Some (CRStatus.mk None (CertificateRequest.Name req)
             (CertificateRequest.Namespace req)
             (CertificateRequest.Status_Conditions req) None) /\
   CertificateStatusBuilder.Events b' = events /\
   only_CRStatus_and_Events_differ builder b') /\
  CertificateStatusBuilder.Events (withCR builder req' events (Some err))
  = CertificateStatusBuilder.Events builder /\
  withCR builder None events None = builder.
Proof.
  repeat split.
Qed.

End Builder.

(** ** The renderings *)

Lemma conditions_fold (conditions : list Condition) :
  forall acc,
    fold_left (fun conditionMsg con => conditionMsg +:+ conditionLine con) conditions acc
    = acc +:+ conditionLines conditions.
Proof.
  induction conditions as [|con rest IH]; intros acc; simpl.
  - now rewrite string_app_nil_r.
  - now rewrite IH, string_app_assoc.
Qed.

Lemma conditionMsg_lines (conditions : list Condition) :
  conditionMsg conditions
  = match conditions with
    | [] => "  No Conditions set" +:+ nl
    | _ :: _ => conditionLines conditions
    end.
Proof.
  unfold conditionMsg.
  change (fold_left _ conditions "")
    with (fold_left (fun conditionMsg con => conditionMsg +:+ conditionLine con)
            conditions "").
  rewrite conditions_fold, app_Empty.
  destruct conditions as [|con rest]; reflexivity.
Qed.

Lemma conditionLines_app (l1 l2 : list Condition) :
  conditionLines (l1 ++ l2) = conditionLines l1 +:+ conditionLines l2.
Proof.
  induction l1 as [|con rest IH]; simpl; [reflexivity|].
  now rewrite IH, string_app_assoc.
Qed.

Section Renderings.

Variable PublicKeyAlgorithm_String : Z -> string.
Variable SignatureAlgorithm_String : Z -> string.
Variable DescribeEvents : option EventList -> string.

(** C5: the rendering of a failed sub-report, of any of the three kinds,
    is the message of the stored error and nothing else, whatever the
    other fields hold. *)
Theorem failed_subreport_renders_error_message
  (issuerStatus : IssuerStatus.t) (secretStatus : SecretStatus.t)
  (crStatus : CRStatus.t) (err : error) :
  (IssuerStatus.Error issuerStatus = Some err ->
   IssuerStatus.String issuerStatus = error_Error err) /\
  (SecretStatus.Error secretStatus = Some err ->
   SecretStatus.String PublicKeyAlgorithm_String SignatureAlgorithm_String secretStatus
   = Some (error_Error err)) /\
  (CRStatus.Error crStatus = Some err ->
   CRStatus.String DescribeEvents crStatus = (error_Error err, "")).
Proof.
  repeat split; intros Herr.
  - unfold IssuerStatus.String. now rewrite Herr.
  - unfold SecretStatus.String. now rewrite Herr.
  - unfold CRStatus.String. now rewrite Herr.
Qed.

(** C9: in the ok renderings of [IssuerStatus.String] and
    [CRStatus.String] the conditions block is the line "No Conditions set"
    when there is no condition, and otherwise one line per condition, ended
    by a newline, of the form "Type: Status, Reason: Reason, Message:
    Message", in the order of the list, nothing dropped and nothing
    reordered. *)
Theorem conditions_rendered_in_order
  (issuerStatus : IssuerStatus.t) (crStatus : CRStatus.t) :
  (IssuerStatus.Error issuerStatus = None ->
   IssuerStatus.String issuerStatus
   = "Issuer:" +:+ nl +:+
     "  Name: " +:+ IssuerStatus.Name issuerStatus +:+ nl +:+
     "  Kind: " +:+ IssuerStatus.Kind issuerStatus +:+ nl +:+
     "  Conditions:" +:+ nl +:+
     "  " +:+ conditionMsg (IssuerStatus.Conditions issuerStatus)) /\
  (CRStatus.Error crStatus = None ->
   fst (CRStatus.String DescribeEvents crStatus)
   = "CertificateRequest:" +:+ nl +:+
     "  Name: " +:+ CRStatus.Name crStatus +:+ nl +:+
     "  Namespace: " +:+ CRStatus.Namespace crStatus +:+ nl +:+
     "  Conditions:" +:+ nl +:+
     "  " +:+ conditionMsg (CRStatus.Conditions crStatus) +:+
     DescribeEvents (CRStatus.Events crStatus)) /\
  conditionMsg [] = "  No Conditions set" +:+ nl /\
  (forall con rest,
     conditionMsg (con :: rest)
     = ("  " +:+ Type_ con +:+ ": " +:+ Status con +:+ ", Reason: " +:+ Reason con
        +:+ ", Message: " +:+ Message con +:+ nl)
       +:+ conditionLines rest) /\
  (forall conditions,
     conditions <> [] -> conditionMsg conditions = conditionLines conditions) /\
  (forall l1 l2, conditionLines (l1 ++ l2) = conditionLines l1 +:+ conditionLines l2) /\
  conditionMsg [mkCondition "Ready" "True" "Issued" "Certificate issued"]
  = "  Ready: True, Reason: Issued, Message: Certificate issued" +:+ nl.
Proof.
  split; [|split; [|split; [|split; [|split; [|split]]]]].
  - intros Herr. unfold IssuerStatus.String. now rewrite Herr.
  - intros Herr. unfold CRStatus.String. rewrite Herr.
    cbv [bind fmt_Println ret fst].
    now rewrite !string_app_assoc.
  - reflexivity.
  - intros con rest. now rewrite conditionMsg_lines.
  - intros [|con rest] Hne; [congruence | now rewrite conditionMsg_lines].
  - apply conditionLines_app.
  - reflexivity.
Qed.

End Renderings.

Lemma failed_subreport_renders_error_message_witness :
  let err := errorString "issuers.cert-manager.io not found" in
  IssuerStatus.String (IssuerStatus.mk (Some err) "ca" "Issuer" []) = error_Error err /\
  SecretStatus.String (fun _ => "RSA") (fun _ => "SHA256-RSA")
    (SecretStatus.mk (Some err) "tls" [] [] "" 5 [1; 20] 1 4 [] [] None)
  = Some (error_Error err) /\
  CRStatus.String (fun _ => "")
    (CRStatus.mk (Some err) "req" "default" [mkCondition "Ready" "True" "Issued" ""] None)
  = (error_Error err, "").
Proof.
  intros err.
  pose proof (failed_subreport_renders_error_message
                (fun _ => "RSA") (fun _ => "SHA256-RSA") (fun _ => "")
                (IssuerStatus.mk (Some err) "ca" "Issuer" [])
                (SecretStatus.mk (Some err) "tls" [] [] "" 5 [1; 20] 1 4 [] [] None)
                (CRStatus.mk (Some err) "req" "default"
                   [mkCondition "Ready" "True" "Issued" ""] None)
                err) as (Hissuer & Hsecret & Hcr).
  split; [|split].
  - apply Hissuer. reflexivity.
  - apply Hsecret. reflexivity.
  - apply Hcr. reflexivity.
Defined.

Lemma conditions_rendered_in_order_witness :
  let ready := mkCondition "Ready" "True" "Issued" "Certificate issued" in
  IssuerStatus.String (IssuerStatus.mk None "ca" "ClusterIssuer" [ready; ready])
  = "Issuer:" +:+ nl +:+
    "  Name: ca" +:+ nl +:+
    "  Kind: ClusterIssuer" +:+ nl +:+
    "  Conditions:" +:+ nl +:+
    "    Ready: True, Reason: Issued, Message: Certificate issued" +:+ nl +:+
    "  Ready: True, Reason: Issued, Message: Certificate issued" +:+ nl /\
  fst (CRStatus.String (fun _ => "Events:  <none>") (CRStatus.mk None "req" "default" [] None))
  = "CertificateRequest:" +:+ nl +:+
    "  Name: req" +:+ nl +:+
    "  Namespace: default" +:+ nl +:+
    "  Conditions:" +:+ nl +:+
    "    No Conditions set" +:+ nl +:+
    "Events:  <none>".
Proof.
  intros ready.
  pose proof (conditions_rendered_in_order (fun _ => "Events:  <none>")
                (IssuerStatus.mk None "ca" "ClusterIssuer" [ready; ready])
                (CRStatus.mk None "req" "default" [] None)) as (Hissuer & Hcr & _).
  split.
  - apply Hissuer. reflexivity.
  - apply Hcr. reflexivity.
Defined.

(** ** Bytes, big integers and hexadecimal *)

Lemma Z_of_byte_range (b : byte) : 0 <= Z_of_byte b < 256.
Proof.
  unfold Z_of_byte. pose proof (Byte.to_N_bounded b). lia.
Qed.

Lemma Z_of_byte_of_Z (n : Z) : 0 <= n < 256 -> Z_of_byte (byte_of_Z n) = n.
Proof.
  intros Hn. unfold Z_of_byte, byte_of_Z.
  rewrite Z.mod_small by exact Hn.
  destruct (Byte.of_N (Z.to_N n)) as [b|] eqn:E.
  - simpl. apply Byte.to_of_N in E. rewrite E. lia.
  - apply Byte.of_N_None_iff in E. lia.
Qed.

Lemma big_endian_fold (bs : list byte) :
  forall acc,
    fold_left (fun acc b => acc * 256 + Z_of_byte b) bs acc
    = acc * 256 ^ Z.of_nat (length bs) + big_endian_value bs.
Proof.
  unfold big_endian_value.
  induction bs as [|b bs IH]; intros acc.
  - simpl. lia.
  - cbn [fold_left length]. rewrite IH, (IH (0 * 256 + Z_of_byte b)).
    rewrite Nat2Z.inj_succ, Z.pow_succ_r by lia. ring.
Qed.

Lemma big_endian_cons (b : byte) (bs : list byte) :
  big_endian_value (b :: bs)
  = Z_of_byte b * 256 ^ Z.of_nat (length bs) + big_endian_value bs.
Proof.
  unfold big_endian_value at 1. cbn [fold_left]. rewrite big_endian_fold. ring.
Qed.

Lemma nat_bytes_zero (fuel : nat) (acc : list byte) : nat_bytes fuel 0 acc = acc.
Proof. destruct fuel; reflexivity. Qed.

Lemma nat_bytes_value (fuel : nat) :
  forall n acc,
    0 <= n < 256 ^ Z.of_nat fuel ->
    big_endian_value (nat_bytes fuel n acc)
    = n * 256 ^ Z.of_nat (length acc) + big_endian_value acc.
Proof.
  induction fuel as [|fuel IH]; intros n acc Hn.
  - simpl in *. assert (n = 0) as -> by lia. lia.
  - cbn [nat_bytes]. destruct (Z.eqb_spec n 0) as [->|Hne]; [lia|].
    rewrite Nat2Z.inj_succ, Z.pow_succ_r in Hn by lia.
    rewrite IH by (split; [apply Z.div_pos; lia | apply Z.div_lt_upper_bound; lia]).
    rewrite big_endian_cons, Z_of_byte_of_Z by (apply Z.mod_pos_bound; lia).
    cbn [length]. rewrite Nat2Z.inj_succ, Z.pow_succ_r by lia.
    rewrite (Z.div_mod n 256) at 3 by lia. ring.
Qed.

Lemma nat_bytes_head (fuel : nat) :
  forall n acc,
    0 < n < 256 ^ Z.of_nat fuel ->
    exists b rest, nat_bytes fuel n acc = b :: rest /\ b <> x00.
Proof.
  induction fuel as [|fuel IH]; intros n acc Hn.
  - simpl in Hn. lia.
  - cbn [nat_bytes]. destruct (Z.eqb_spec n 0) as [->|Hne]; [lia|].
    rewrite Nat2Z.inj_succ, Z.pow_succ_r in Hn by lia.
    destruct (Z.eq_dec (n / 256) 0) as [Hq|Hq].
    + rewrite Hq, nat_bytes_zero. eexists _, _. split; [reflexivity|].
      intros Hb. apply Z.div_small_iff in Hq; [|lia].
      assert (Hn' : 0 <= n mod 256 < 256) by (apply Z.mod_pos_bound; lia).
      pose proof (Z_of_byte_of_Z _ Hn') as Hv. rewrite Hb in Hv.
      rewrite Z.mod_small in Hv by lia. change (Z_of_byte x00) with 0 in Hv. lia.
    + apply IH. split.
      * pose proof (Z.div_pos n 256). lia.
      * apply Z.div_lt_upper_bound; lia.
Qed.

Lemma big_Int_Bytes_fuel (n : Z) :
  0 <= n -> n < 256 ^ Z.of_nat (Z.to_nat (Z.log2 n) + 1).
Proof.
  intros Hn. rewrite Nat2Z.inj_add, Z2Nat.id by apply Z.log2_nonneg.
  destruct (Z.eq_dec n 0) as [->|Hne].
  - reflexivity.
  - pose proof (Z.log2_spec n ltac:(lia)) as [_ Hlt].
    pose proof (Z.log2_nonneg n).
    eapply Z.lt_le_trans; [exact Hlt|].
    change (Z.of_nat 1) with 1. rewrite <- Z.add_1_r.
    apply Z.pow_le_mono_l. lia.
Qed.

Lemma big_Int_Bytes_value (x : Z) : big_endian_value (big_Int_Bytes x) = Z.abs x.
Proof.
  unfold big_Int_Bytes. rewrite nat_bytes_value.
  - simpl. unfold big_endian_value. simpl. lia.
  - split; [lia | apply big_Int_Bytes_fuel; lia].
Qed.

Lemma big_Int_Bytes_no_leading_zero (x : Z) : head (big_Int_Bytes x) <> Some x00.
Proof.
  unfold big_Int_Bytes. destruct (Z.eq_dec x 0) as [->|Hne].
  - simpl. discriminate.
  - destruct (nat_bytes_head (Z.to_nat (Z.log2 (Z.abs x)) + 1) (Z.abs x) [])
      as (b & rest & -> & Hb).
    + split; [lia | apply big_Int_Bytes_fuel; lia].
    + simpl. congruence.
Qed.

Lemma hex_EncodeToString_length (src : list byte) :
  String.length (hex_EncodeToString src) = (2 * length src)%nat.
Proof. induction src as [|v rest IH]; simpl; [reflexivity | rewrite IH; lia]. Qed.

Lemma hex_EncodeToString_lowercase (src : list byte) :
  lowerHexString (hex_EncodeToString src) = true.
Proof.
  induction src as [|v rest IH]; [reflexivity|].
  cbn [hex_EncodeToString lowerHexString]. rewrite IH.
  destruct v; reflexivity.
Qed.

Section SecretRendering.

Variable PublicKeyAlgorithm_String : Z -> string.
Variable SignatureAlgorithm_String : Z -> string.

(** C10: for an ok [SecretStatus] with a serial number, the rendering ends
    with the Subject Key ID and the Authority Key ID as the lowercase
    hexadecimal of their bytes and the Serial Number as the lowercase
    hexadecimal of the bytes of its magnitude, big-endian and without a
    leading zero byte; the serial number 255 gives "ff". *)
Theorem SecretStatus_String_hex_fields
  (secretStatus : SecretStatus.t) (serialNumber : Z) :
  SecretStatus.Error secretStatus = None ->
  SecretStatus.SerialNumber secretStatus = Some serialNumber ->
  (exists head,
     SecretStatus.String PublicKeyAlgorithm_String SignatureAlgorithm_String secretStatus
     = Some (head +:+
             "  Subject Key ID: "
             +:+ hex_EncodeToString (SecretStatus.SubjectKeyId secretStatus) +:+ nl +:+
             "  Authority Key ID: "
             +:+ hex_EncodeToString (SecretStatus.AuthorityKeyId secretStatus) +:+ nl +:+
             "  Serial Number: "
             +:+ hex_EncodeToString (big_Int_Bytes serialNumber) +:+ nl)) /\
  big_endian_value (big_Int_Bytes serialNumber) = Z.abs serialNumber /\
  head (big_Int_Bytes serialNumber) <> Some x00 /\
  (forall src, lowerHexString (hex_EncodeToString src) = true /\
               String.length (hex_EncodeToString src) = (2 * length src)%nat) /\
  hex_EncodeToString (big_Int_Bytes 255) = "ff".
Proof.
  intros Herr Hserial. split; [|split; [|split; [|split]]].
  - unfold SecretStatus.String. rewrite Herr, Hserial.
    destruct (extKeyUsageToString (SecretStatus.ExtKeyUsage secretStatus))
      as [extKeyUsageString err].
    exists ("Secret:" +:+ nl +:+
            "  Name: " +:+ SecretStatus.Name secretStatus +:+ nl +:+
            "  Issuer Country: "
            +:+ strings_Join (SecretStatus.IssuerCountry secretStatus) ", " +:+ nl +:+
            "  Issuer Organisation: "
            +:+ strings_Join (SecretStatus.IssuerOrganisation secretStatus) ", " +:+ nl +:+
            "  Issuer Common Name: " +:+ SecretStatus.IssuerCommonName secretStatus +:+ nl +:+
            "  Key Usage: " +:+ keyUsageToString (SecretStatus.KeyUsage secretStatus) +:+ nl +:+
            "  Extended Key Usages: "
            +:+ match err with Some err => error_Error err | None => extKeyUsageString end
            +:+ nl +:+
            "  Public Key Algorithm: "
            +:+ PublicKeyAlgorithm_String (SecretStatus.PublicKeyAlgorithm secretStatus) +:+ nl +:+
            "  Signature Algorithm: "
            +:+ SignatureAlgorithm_String (SecretStatus.SignatureAlgorithm secretStatus) +:+ nl).
    now rewrite !string_app_assoc.
  - apply big_Int_Bytes_value.
  - apply big_Int_Bytes_no_leading_zero.
  - intros src. split;
      [apply hex_EncodeToString_lowercase | apply hex_EncodeToString_length].
  - reflexivity.
Qed.

End SecretRendering.

Lemma SecretStatus_String_hex_fields_witness :
  let secretStatus :=
    SecretStatus.mk None "tls" ["GB"] ["cert-manager"] "ca" 5 [1; 2] 1 4
      [xab; xcd] [x01; x02] (Some 255) in
  exists head,
    SecretStatus.String (fun _ => "RSA") (fun _ => "SHA256-RSA") secretStatus
    = Some (head +:+
            "  Subject Key ID: abcd" +:+ nl +:+
            "  Authority Key ID: 0102" +:+ nl +:+
            "  Serial Number: ff" +:+ nl).
Proof.
  intros secretStatus.
  exact (proj1 (SecretStatus_String_hex_fields (fun _ => "RSA") (fun _ => "SHA256-RSA")
                  secretStatus 255 eq_refl eq_refl)).
Defined.

(** ** Quoting *)

Section Quoting.

Variable isPrintWide : Z -> bool.

Lemma quoteLoop_plain_char (c : ascii) (s : string) :
  plainChar c = true ->
  quoteLoop isPrintWide 0 (String c s) = String c (quoteLoop isPrintWide 0 s).
Proof.
  destruct c as [[] [] [] [] [] [] [] []]; intros Hc;
    try discriminate Hc; reflexivity.
Qed.

Lemma quoteLoop_plain (s : string) :
  plainString s = true -> quoteLoop isPrintWide 0 s = s.
Proof.
  induction s as [|c s IH]; [reflexivity|].
  cbn [plainString]. intros [Hc Hs]%andb_prop.
  now rewrite quoteLoop_plain_char, IH.
Qed.

Lemma strconv_Quote_plain (s : string) :
  plainString s = true -> strconv_Quote isPrintWide s = dquote +:+ s +:+ dquote.
Proof.
  intros Hs. unfold strconv_Quote. now rewrite quoteLoop_plain.
Qed.

Variable DecodeX509CertificateBytes : list byte -> x509.Certificate + error.

Lemma withSecret_frame (builder : CertificateStatusBuilder.t)
  (secret : option Secret.t) (err : option error) :
  only_SecretStatus_differs builder
    (withSecret isPrintWide DecodeX509CertificateBytes builder secret err).
Proof.
  unfold withSecret.
  destruct err; [repeat split|]. destruct secret as [secret|]; [|repeat split].
  destruct (_ =? _)%nat; [repeat split|].
  destruct (DecodeX509CertificateBytes _); repeat split.
Qed.

(** C8, as amended: with a nil error and a secret whose ['tls.crt'] is
    missing or empty, [withSecret] sets a failed [SecretStatus] whose
    message mentions ['tls.crt'] and holds the name of the secret as [%q]
    quotes it; with bytes that fail to decode, the message holds the quoted
    name and the message of the parse error. The quoted name is the name
    between double quotes when the name is printable ASCII without double
    quote and backslash, and then the message contains the name itself. No
    other field of the builder changes. *)
Theorem withSecret_certificate_failures
  (builder : CertificateStatusBuilder.t) (secret : Secret.t) :
  let name := Secret.Name secret in
  let certData := default [] (Secret.Data secret !! "tls.crt") in
  let b' := withSecret isPrintWide DecodeX509CertificateBytes builder (Some secret) None in
  (Secret.Data secret !! "tls.crt" = None \/ Secret.Data secret !! "tls.crt" = Some [] ->
   exists msg,
     CertificateStatusBuilder.SecretStatus b'
     = Some (SecretStatus_failed (errorString msg)) /\
     msg = "error: 'tls.crt' of Secret " +:+ strconv_Quote isPrintWide name
           +:+ " is not set" +:+ nl /\
     strings_Contains msg "'tls.crt'" /\
     strings_Contains msg (strconv_Quote isPrintWide name) /\
     (plainString name = true -> strings_Contains msg name)) /\
  (forall err,
     certData <> [] ->
     DecodeX509CertificateBytes certData = inr err ->
     exists msg,
       CertificateStatusBuilder.SecretStatus b'
       = Some (SecretStatus_failed (errorString msg)) /\
       msg = "error when parsing 'tls.crt' of Secret " +:+ strconv_Quote isPrintWide name
             +:+ ": " +:+ error_Error err +:+ nl /\
       strings_Contains msg (strconv_Quote isPrintWide name) /\
       strings_Contains msg (error_Error err) /\
       (plainString name = true -> strings_Contains msg name)) /\
  only_SecretStatus_differs builder b'.
Proof.
  intros name certData b'. split; [|split].
  - intros Hdata.
    assert (HcertData : certData = []).
    { subst certData. destruct Hdata as [-> | ->]; reflexivity. }
    eexists. split; [|split; [reflexivity|]].
    + subst b'. unfold withSecret. fold certData. rewrite HcertData. reflexivity.
    + split; [|split].
      * exists "error: ", (" of Secret " +:+ strconv_Quote isPrintWide name
                           +:+ " is not set" +:+ nl). reflexivity.
      * exists "error: 'tls.crt' of Secret ", (" is not set" +:+ nl). reflexivity.
      * intros Hplain. rewrite strconv_Quote_plain by exact Hplain.
        exists ("error: 'tls.crt' of Secret " +:+ dquote),
               (dquote +:+ " is not set" +:+ nl).
        now rewrite !string_app_assoc.
  - intros err Hne Hdecode.
    eexists. split; [|split; [reflexivity|]].
    + subst b'. unfold withSecret. fold certData.
      destruct certData as [|b rest]; [congruence|].
      cbn [length Nat.eqb]. rewrite Hdecode. reflexivity.
    + split; [|split].
      * exists "error when parsing 'tls.crt' of Secret ", (": " +:+ error_Error err +:+ nl).
        reflexivity.
      * exists ("error when parsing 'tls.crt' of Secret " +:+ strconv_Quote isPrintWide name
                +:+ ": "), nl.
        now rewrite !string_app_assoc.
      * intros Hplain. rewrite strconv_Quote_plain by exact Hplain.
        exists ("error when parsing 'tls.crt' of Secret " +:+ dquote),
               (dquote +:+ ": " +:+ error_Error err +:+ nl).
        now rewrite !string_app_assoc.
  - apply withSecret_frame.
Qed.

End Quoting.

Lemma withSecret_certificate_failures_witness :
  let secret := Secret.mk "my-secret" {[ "tls.crt" := [x30; x82] ]} in
  let decode := fun _ : list byte => inr (errorString "asn1: syntax error") in
  CertificateStatusBuilder.SecretStatus
    (withSecret (fun _ => false) decode exampleBuilder (Some (Secret.mk "my-secret" ∅)) None)
  = Some (SecretStatus_failed
            (errorString ("error: 'tls.crt' of Secret " +:+ dquote +:+ "my-secret" +:+ dquote
                          +:+ " is not set" +:+ nl))) /\
  CertificateStatusBuilder.SecretStatus
    (withSecret (fun _ => false) decode exampleBuilder (Some secret) None)
  = Some (SecretStatus_failed
            (errorString ("error when parsing 'tls.crt' of Secret " +:+ dquote +:+ "my-secret"
                          +:+ dquote +:+ ": asn1: syntax error" +:+ nl))).
Proof.
  intros secret decode. split.
  - destruct (withSecret_certificate_failures (fun _ => false) decode exampleBuilder
                (Secret.mk "my-secret" ∅)) as [Hmissing _].
    destruct Hmissing as (msg & Hstatus & -> & _); [left; reflexivity|].
    exact Hstatus.
  - destruct (withSecret_certificate_failures (fun _ => false) decode exampleBuilder secret)
      as (_ & Hparse & _).
    destruct (Hparse (errorString "asn1: syntax error")) as (msg & Hstatus & -> & _);
      [discriminate | reflexivity |].
    exact Hstatus.
Defined.

(** C8 as stated fails for a name with a double quote in it: [%q] writes
    the quote with a backslash, and the name is no part of the message. *)
Lemma withSecret_message_quotes_name :
  let secret := Secret.mk ("a" +:+ dquote +:+ "b") ∅ in
  Secret.Data secret !! "tls.crt" = None /\
  exists msg,
    CertificateStatusBuilder.SecretStatus
      (withSecret (fun _ => false) (fun _ => inr (errorString "")) exampleBuilder
         (Some secret) None)
    = Some (SecretStatus_failed (errorString msg)) /\
    ~ strings_Contains msg (Secret.Name secret).
Proof.
  split; [reflexivity|]. eexists. split; [reflexivity|].
  intros Hcontains%containsb_complete. vm_compute in Hcontains. discriminate.
Qed.

Section RequestRendering.

Variable DescribeEvents : option EventList -> string.

Lemma fmt_Println_bytes_nonempty (bs : list byte) : fmt_Println_bytes bs <> "".
Proof. unfold fmt_Println_bytes. rewrite app_String. discriminate. Qed.

Lemma CRStatus_String_stdout (crStatus : CRStatus.t) :
  CRStatus.Error crStatus = None ->
  snd (CRStatus.String DescribeEvents crStatus)
  = fmt_Println_bytes (bytes_of_string (DescribeEvents (CRStatus.Events crStatus))).
Proof.
  intros Herr. unfold CRStatus.String. rewrite Herr.
  cbv [bind fmt_Println ret snd]. apply string_app_nil_r.
Qed.

(** C4: [CRStatus.String] on a report without an error is not a pure
    read: it prints the bytes of the event description to the standard
    output, at the least the brackets and a newline. *)
Theorem CRStatus_String_prints_to_stdout :
  let events := Some (mkEventList []) in
  let crStatus := CRStatus.mk None "my-request" "default" [] events in
  snd (CRStatus.String DescribeEvents crStatus)
  = fmt_Println_bytes (bytes_of_string (DescribeEvents events)) /\
  snd (CRStatus.String DescribeEvents crStatus) <> "".
Proof.
  intros events crStatus. rewrite CRStatus_String_stdout by reflexivity.
  split; [reflexivity | apply fmt_Println_bytes_nonempty].
Qed.

End RequestRendering.

(** * Further properties *)

(** ** The key-usage decoder on every integer *)

Lemma keyUsageLoop_exhausted (vals : list Z) (usageInt : Z) (usageStrings : list string) :
  Forall (fun val => 0 < val) vals ->
  usageInt <= 0 ->
  keyUsageLoopNoBreak vals usageInt usageStrings = usageStrings.
Proof.
  intros Hpos Hle. induction Hpos as [|val rest Hval _ IH]; [reflexivity|].
  cbn [keyUsageLoopNoBreak].
  destruct (Z.geb_spec usageInt val); [lia | exact IH].
Qed.

Lemma keyUsageLoop_negative (vals : list Z) (usageInt : Z) (usageStrings : list string) :
  Forall (fun val => 0 < val) vals ->
  usageInt < 0 ->
  keyUsageLoop vals usageInt usageStrings = usageStrings.
Proof.
  intros Hpos Hneg. induction Hpos as [|val rest Hval _ IH]; [reflexivity|].
  cbn [keyUsageLoop].
  destruct (Z.geb_spec usageInt val); [lia|].
  destruct (Z.eqb_spec usageInt 0); [lia | exact IH].
Qed.

Lemma keyUsagePossibleValues_positive : Forall (fun val => 0 < val) keyUsagePossibleValues.
Proof. unfold keyUsagePossibleValues. repeat constructor. Qed.

(** X1: over a table of positive values the [break] of the first loop of
    [keyUsageToString] cannot be observed: the loop collects the same labels
    as the loop that always runs to the end of the table. *)
Theorem keyUsageLoop_break_unobservable (vals : list Z) :
  Forall (fun val => 0 < val) vals ->
  forall usageInt usageStrings,
    keyUsageLoop vals usageInt usageStrings
    = keyUsageLoopNoBreak vals usageInt usageStrings.
Proof.
  intros Hpos. induction Hpos as [|val rest Hval Hrest IH]; intros usageInt usageStrings;
    [reflexivity|].
  cbn [keyUsageLoop keyUsageLoopNoBreak].
  destruct (Z.geb_spec usageInt val) as [Hge|Hlt].
  - destruct (Z.eqb_spec (usageInt - val) 0) as [H0|Hne]; [|apply IH].
    rewrite H0. symmetry. apply keyUsageLoop_exhausted; [exact Hrest | lia].
  - destruct (Z.eqb_spec usageInt 0) as [H0|Hne]; [|apply IH].
    symmetry. apply keyUsageLoop_exhausted; [exact Hrest | lia].
Qed.

Lemma keyUsageLoop_break_unobservable_witness :
  keyUsageLoop keyUsagePossibleValues 6 [] = keyUsageLoopNoBreak keyUsagePossibleValues 6 [].
Proof.
  apply (keyUsageLoop_break_unobservable keyUsagePossibleValues).
  unfold keyUsagePossibleValues. repeat constructor.
Defined.

(** X2: a negative key usage renders as the empty string. *)
Theorem keyUsageToString_negative (usage : Z) :
  usage < 0 -> keyUsageToString usage = "".
Proof.
  intros Hneg. unfold keyUsageToString.
  rewrite keyUsageLoop_negative by (trivial; apply keyUsagePossibleValues_positive).
  reflexivity.
Qed.

Lemma keyUsageToString_negative_witness : keyUsageToString (-3) = "".
Proof. apply keyUsageToString_negative. lia. Defined.

(** X3: on the bitsets from 0 to 511 the rendering is injective: two
    bitsets with the same rendering are equal. *)
Theorem keyUsageToString_injective (a b : Z) :
  0 <= a <= 511 -> 0 <= b <= 511 ->
  keyUsageToString a = keyUsageToString b -> a = b.
Proof.
  intros Ha Hb Heq.
  set (table := map (fun n => keyUsageToString (Z.of_nat n)) (seq 0 512)).
  set (position := fun s => list_find (String.eqb s) table).
  assert (Hall : forallb (fun n => match position (keyUsageToString (Z.of_nat n)) with
                                    | Some (m, _) => Nat.eqb m n
                                    | None => false
                                    end) (seq 0 512) = true)
    by (vm_compute; reflexivity).
  rewrite forallb_forall in Hall.
  assert (Hpos : forall c, 0 <= c <= 511 ->
                   exists s, position (keyUsageToString c) = Some (Z.to_nat c, s)).
  { intros c Hc.
    assert (Hin : In (Z.to_nat c) (seq 0 512)) by (apply in_seq; lia).
    apply Hall in Hin. rewrite Z2Nat.id in Hin by lia.
    destruct (position (keyUsageToString c)) as [[m s]|]; [|discriminate Hin].
    exists s. apply Nat.eqb_eq in Hin. now subst m. }
  destruct (Hpos a Ha) as [sa Hsa]. destruct (Hpos b Hb) as [sb Hsb].
  rewrite Heq, Hsb in Hsa. injection Hsa as Hab _. lia.
Qed.

Lemma keyUsageToString_injective_witness :
  keyUsageToString 5 = keyUsageToString (1 + 4) /\ 5 = 1 + 4.
Proof.
  split; [reflexivity|].
  exact (keyUsageToString_injective 5 (1 + 4) ltac:(lia) ltac:(lia) eq_refl).
Defined.

(** ** The extended-key-usage decoder on every input *)

Lemma strings_Join_app (l1 l2 : list string) (sep : string) :
  l1 <> [] -> l2 <> [] ->
  strings_Join (l1 ++ l2) sep = strings_Join l1 sep +:+ sep +:+ strings_Join l2 sep.
Proof.
  intros Hl1 Hl2. induction l1 as [|a [|b l1] IH]; [congruence| |].
  - destruct l2; [congruence | reflexivity].
  - change (strings_Join ((a :: b :: l1) ++ l2) sep)
      with (a +:+ sep +:+ strings_Join ((b :: l1) ++ l2) sep).
    rewrite IH by discriminate.
    change (strings_Join (a :: b :: l1) sep)
      with (a +:+ sep +:+ strings_Join (b :: l1) sep).
    now rewrite !string_app_assoc.
Qed.

Lemma extKeyUsage_known_dec (code : Z) : {extKeyUsageKnown code} + {~ extKeyUsageKnown code}.
Proof.
  unfold extKeyUsageKnown.
  destruct (Z_le_dec 0 code), (Z_le_dec code 13); (left; lia) || (right; lia).
Qed.

Lemma extKeyUsage_first_unknown (codes : list Z) :
  Forall extKeyUsageKnown codes \/
  exists pre code post,
    codes = pre ++ code :: post /\ Forall extKeyUsageKnown pre /\ ~ extKeyUsageKnown code.
Proof.
  induction codes as [|c rest IH]; [left; constructor|].
  destruct (extKeyUsage_known_dec c) as [Hc|Hc].
  - destruct IH as [Hrest|(pre & code & post & -> & Hpre & Hcode)].
    + left. now constructor.
    + right. exists (c :: pre), code, post. repeat split; trivial. now constructor.
  - right. exists [], c, rest. repeat split; trivial.
Qed.

(** X4: [extKeyUsageToString] returns a nil error exactly when every code
    is in 0..13, and whenever it returns an error the string is empty. *)
Theorem extKeyUsageToString_error_iff (codes : list Z) :
  (snd (extKeyUsageToString codes) = None <-> Forall extKeyUsageKnown codes) /\
  (snd (extKeyUsageToString codes) <> None -> fst (extKeyUsageToString codes) = "").
Proof.
  unfold extKeyUsageToString.
  destruct (extKeyUsage_first_unknown codes)
    as [Hknown|(pre & code & post & -> & Hpre & Hcode)].
  - rewrite extKeyUsageLoop_known by exact Hknown. cbn [fst snd].
    split; [tauto | congruence].
  - rewrite extKeyUsageLoop_unknown by assumption. cbn [fst snd].
    split; [|reflexivity]. split; [discriminate|].
    intros Hall. apply Forall_app in Hall as [_ Hall].
    inversion Hall; subst. contradiction.
Qed.

Lemma extKeyUsageToString_error_iff_witness :
  fst (extKeyUsageToString [1; 2; 99; 3]) = "".
Proof.
  apply (proj2 (extKeyUsageToString_error_iff [1; 2; 99; 3])). discriminate.
Defined.

(** X5: [extKeyUsageToString] on a concatenation: an unknown code in the
    first part decides the result and the second part is not looked at; two
    non-empty parts of known codes give the two renderings joined by
    ", ". *)
Theorem extKeyUsageToString_app (codes1 codes2 : list Z) :
  (snd (extKeyUsageToString codes1) <> None ->
   extKeyUsageToString (codes1 ++ codes2) = extKeyUsageToString codes1) /\
  (Forall extKeyUsageKnown codes1 -> Forall extKeyUsageKnown codes2 ->
   codes1 <> [] -> codes2 <> [] ->
   extKeyUsageToString (codes1 ++ codes2)
   = (fst (extKeyUsageToString codes1) +:+ ", " +:+ fst (extKeyUsageToString codes2),
      None)).
Proof.
  unfold extKeyUsageToString. split.
  - destruct (extKeyUsage_first_unknown codes1)
      as [Hknown|(pre & code & post & -> & Hpre & Hcode)].
    + rewrite (extKeyUsageLoop_known codes1) by exact Hknown. cbn [snd]. congruence.
    + intros _. rewrite <- app_assoc, <- app_comm_cons.
      now rewrite !extKeyUsageLoop_unknown.
  - intros H1 H2 Hne1 Hne2.
    rewrite !extKeyUsageLoop_known by (trivial; now apply Forall_app).
    cbn [fst app]. rewrite map_app, strings_Join_app; [reflexivity| |].
    + destruct codes1; [congruence | discriminate].
    + destruct codes2; [congruence | discriminate].
Qed.

Lemma extKeyUsageToString_app_witness :
  extKeyUsageToString ([1; 14] ++ [2]) = extKeyUsageToString [1; 14] /\
  extKeyUsageToString ([1; 2] ++ [0])
  = ("Server Authentication, Client Authentication, Any", None).
Proof.
  split.
  - apply (proj1 (extKeyUsageToString_app [1; 14] [2])). discriminate.
  - apply (proj2 (extKeyUsageToString_app [1; 2] [0])); try discriminate;
      repeat constructor; unfold extKeyUsageKnown; lia.
Defined.

(** ** The rendering of the secret on every report *)

Lemma hex_byte_inverse (v : byte) :
  byte_of_Z (16 * unhexdigit (hexdigit (Z.shiftr (Z_of_byte v) 4))
             + unhexdigit (hexdigit (Z.land (Z_of_byte v) 15))) = v.
Proof. destruct v; reflexivity. Qed.

Lemma hex_EncodeToString_injective (src1 : list byte) :
  forall src2, hex_EncodeToString src1 = hex_EncodeToString src2 -> src1 = src2.
Proof.
  induction src1 as [|v1 rest1 IH]; intros [|v2 rest2] Heq;
    try reflexivity; try discriminate Heq.
  cbn [hex_EncodeToString] in Heq. injection Heq as Hhi Hlo Hrest.
  f_equal; [|now apply IH].
  rewrite <- (hex_byte_inverse v1), <- (hex_byte_inverse v2).
  now rewrite Hhi, Hlo.
Qed.

Lemma big_Int_Bytes_abs (x : Z) : big_Int_Bytes (Z.abs x) = big_Int_Bytes x.
Proof. unfold big_Int_Bytes. now rewrite Z.abs_idemp. Qed.

(** X8: the rendered serial number identifies the magnitude and nothing
    else: two serial numbers render alike exactly when their absolute values
    are equal. *)
Theorem serial_rendering_identifies_magnitude (x y : Z) :
  hex_EncodeToString (big_Int_Bytes x) = hex_EncodeToString (big_Int_Bytes y)
  <-> Z.abs x = Z.abs y.
Proof.
  split.
  - intros Heq%hex_EncodeToString_injective.
    rewrite <- (big_Int_Bytes_value x), <- (big_Int_Bytes_value y). now rewrite Heq.
  - intros Habs. rewrite <- (big_Int_Bytes_abs x), <- (big_Int_Bytes_abs y).
    now rewrite Habs.
Qed.

Section SecretRenderingCases.

Variable PublicKeyAlgorithm_String : Z -> string.
Variable SignatureAlgorithm_String : Z -> string.

(** X7: [SecretStatus.String] fails (the nil-pointer panic of
    [SerialNumber.Bytes()]) exactly on a report with neither an error nor a
    serial number; on every other report it returns a string. *)
Theorem SecretStatus_String_panics_iff (secretStatus : SecretStatus.t) :
  SecretStatus.String PublicKeyAlgorithm_String SignatureAlgorithm_String secretStatus = None
  <-> SecretStatus.Error secretStatus = None /\
      SecretStatus.SerialNumber secretStatus = None.
Proof.
  unfold SecretStatus.String.
  destruct (SecretStatus.Error secretStatus) as [err|].
  - split; [discriminate | intros [? _]; discriminate].
  - destruct (extKeyUsageToString _) as [extKeyUsageString err].
    destruct (SecretStatus.SerialNumber secretStatus) as [serialNumber|].
    + split; [discriminate | intros [_ ?]; discriminate].
    + tauto.
Qed.

(** X6: an unknown extended key usage does not fail the rendering of an ok
    secret report: the text of the decoder's error, naming the first unknown
    code, stands on the Extended Key Usages line instead of the labels. *)
Theorem SecretStatus_String_unknown_extended_usage
  (secretStatus : SecretStatus.t) (serialNumber : Z) (pre post : list Z) (code : Z) :
  SecretStatus.Error secretStatus = None ->
  SecretStatus.SerialNumber secretStatus = Some serialNumber ->
  SecretStatus.ExtKeyUsage secretStatus = pre ++ code :: post ->
  Forall extKeyUsageKnown pre ->
  ~ extKeyUsageKnown code ->
  exists rendered,
    SecretStatus.String PublicKeyAlgorithm_String SignatureAlgorithm_String secretStatus = Some rendered /\
    strings_Contains rendered
      (nl +:+ "  Extended Key Usages: error when converting Extended Usages to string: encountered unknown Extended Usage with code "
       +:+ fmt_d code +:+ nl +:+ "  Public Key Algorithm: ").
Proof.
  intros Herr Hserial Hext Hpre Hcode.
  unfold SecretStatus.String. rewrite Herr, Hserial, Hext.
  unfold extKeyUsageToString. rewrite extKeyUsageLoop_unknown by assumption.
  eexists. split; [reflexivity|].
  exists ("Secret:" +:+ nl +:+
          "  Name: " +:+ SecretStatus.Name secretStatus +:+ nl +:+
          "  Issuer Country: "
          +:+ strings_Join (SecretStatus.IssuerCountry secretStatus) ", " +:+ nl +:+
          "  Issuer Organisation: "
          +:+ strings_Join (SecretStatus.IssuerOrganisation secretStatus) ", " +:+ nl +:+
          "  Issuer Common Name: " +:+ SecretStatus.IssuerCommonName secretStatus +:+ nl +:+
          "  Key Usage: " +:+ keyUsageToString (SecretStatus.KeyUsage secretStatus)).
  eexists. cbn [error_Error extKeyUsageError].
  rewrite !string_app_assoc. reflexivity.
Qed.

End SecretRenderingCases.

Lemma serial_rendering_identifies_magnitude_witness :
  hex_EncodeToString (big_Int_Bytes (-255)) = hex_EncodeToString (big_Int_Bytes 255).
Proof.
  apply (proj2 (serial_rendering_identifies_magnitude (-255) 255)). reflexivity.
Defined.

Lemma SecretStatus_String_panics_iff_witness :
  SecretStatus.String (fun _ => "RSA") (fun _ => "SHA256-RSA")
    (SecretStatus.mk None "tls" [] [] "" 0 [] 0 0 [] [] None) = None.
Proof.
  apply (proj2 (SecretStatus_String_panics_iff (fun _ => "RSA") (fun _ => "SHA256-RSA")
                  (SecretStatus.mk None "tls" [] [] "" 0 [] 0 0 [] [] None))).
  split; reflexivity.
Defined.

Lemma SecretStatus_String_unknown_extended_usage_witness :
  exists rendered,
    SecretStatus.String (fun _ => "RSA") (fun _ => "SHA256-RSA")
      (SecretStatus.mk None "tls" [] [] "ca" 1 [1; 77; 2] 1 4 [] [] (Some 10))
    = Some rendered /\
    strings_Contains rendered
      (nl +:+ "  Extended Key Usages: error when converting Extended Usages to string: encountered unknown Extended Usage with code 77"
       +:+ nl +:+ "  Public Key Algorithm: ").
Proof.
  apply (SecretStatus_String_unknown_extended_usage (fun _ => "RSA") (fun _ => "SHA256-RSA")
           (SecretStatus.mk None "tls" [] [] "ca" 1 [1; 77; 2] 1 4 [] [] (Some 10))
           10 [1] [2] 77); try reflexivity.
  - repeat constructor; unfold extKeyUsageKnown; lia.
  - unfold extKeyUsageKnown; lia.
Defined.

(** ** The builder under any arguments and any chain of calls *)

Section BuilderCalls.

Variable isPrintWide : Z -> bool.
Variable DecodeX509CertificateBytes : list byte -> x509.Certificate + error.

(** X9: whatever its arguments, each method of the builder writes its own
    fields only: [withIssuer] and [withClusterIssuer] at most
    [IssuerStatus], [withSecret] at most [SecretStatus], [withCR] at most
    [CRStatus] and [Events], [withEvents] only [Events] and [withIssuerKind]
    only [IssuerKind]. *)
Theorem with_calls_frame
  (builder : CertificateStatusBuilder.t)
  (issuer : option Issuer.t) (clusterIssuer : option ClusterIssuer.t)
  (secret : option Secret.t) (req : option CertificateRequest.t)
  (events : option EventList) (kind : string) (err : option error) :
  only_IssuerStatus_differs builder (withIssuer builder issuer err) /\
  only_IssuerStatus_differs builder (withClusterIssuer builder clusterIssuer err) /\
  only_SecretStatus_differs builder
    (withSecret isPrintWide DecodeX509CertificateBytes builder secret err) /\
  only_CRStatus_and_Events_differ builder (withCR builder req events err) /\
  only_CRStatus_and_Events_differ builder (withEvents builder events) /\
  CertificateStatusBuilder.CRStatus (withEvents builder events)
  = CertificateStatusBuilder.CRStatus builder /\
  (same_identity builder (withIssuerKind builder kind) /\
   CertificateStatusBuilder.Events (withIssuerKind builder kind)
   = CertificateStatusBuilder.Events builder /\
   CertificateStatusBuilder.IssuerStatus (withIssuerKind builder kind)
   = CertificateStatusBuilder.IssuerStatus builder /\
   CertificateStatusBuilder.SecretStatus (withIssuerKind builder kind)
   = CertificateStatusBuilder.SecretStatus builder /\
   CertificateStatusBuilder.CRStatus (withIssuerKind builder kind)
   = CertificateStatusBuilder.CRStatus builder).
Proof.
  split; [|split; [|split; [|split]]].
  - unfold withIssuer. destruct err, issuer; repeat split.
  - unfold withClusterIssuer. destruct err, clusterIssuer; repeat split.
  - apply withSecret_frame.
  - unfold withCR. destruct err, req; repeat split.
  - repeat split.
Qed.

(** X10: calls that write different fields commute: the issuer, the
    secret and the request lookups can be recorded in any order, and
    [withEvents] and [withIssuerKind] can be moved across the lookups that do
    not write their field. *)
Theorem calls_on_different_subreports_commute
  (builder : CertificateStatusBuilder.t)
  (issuer : option Issuer.t) (clusterIssuer : option ClusterIssuer.t)
  (secret : option Secret.t) (req : option CertificateRequest.t)
  (events events' : option EventList) (kind : string)
  (err1 err2 err3 err4 : option error) :
  let withSecret := withSecret isPrintWide DecodeX509CertificateBytes in
  withSecret (withIssuer builder issuer err1) secret err3
  = withIssuer (withSecret builder secret err3) issuer err1 /\
  withSecret (withClusterIssuer builder clusterIssuer err2) secret err3
  = withClusterIssuer (withSecret builder secret err3) clusterIssuer err2 /\
  withCR (withIssuer builder issuer err1) req events err4
  = withIssuer (withCR builder req events err4) issuer err1 /\
  withCR (withClusterIssuer builder clusterIssuer err2) req events err4
  = withClusterIssuer (withCR builder req events err4) clusterIssuer err2 /\
  withCR (withSecret builder secret err3) req events err4
  = withSecret (withCR builder req events err4) secret err3 /\
  withEvents (withIssuer builder issuer err1) events'
  = withIssuer (withEvents builder events') issuer err1 /\
  withEvents (withSecret builder secret err3) events'
  = withSecret (withEvents builder events') secret err3 /\
  withIssuerKind (withIssuer builder issuer err1) kind
  = withIssuer (withIssuerKind builder kind) issuer err1 /\
  withIssuerKind (withSecret builder secret err3) kind
  = withSecret (withIssuerKind builder kind) secret err3 /\
  withIssuerKind (withCR builder req events err4) kind
  = withCR (withIssuerKind builder kind) req events err4.
Proof.
  intros withSecret'. subst withSecret'.
  unfold withSecret, withIssuer, withClusterIssuer, withCR, withEvents, withIssuerKind.
  destruct err1, err2, err3, err4, issuer, clusterIssuer, req, secret as [secret|];
    repeat split;
    repeat match goal with
      | |- context [if ?c then _ else _] => destruct c
      | |- context [match DecodeX509CertificateBytes ?d with _ => _ end] =>
          destruct (DecodeX509CertificateBytes d)
      end;
    reflexivity.
Qed.

(** X11: the event list is that of the last writer: [withCR] with a
    request replaces the events of an earlier [withEvents] and the other way
    round; a later [withCR] with an error replaces the request report and
    leaves the events of the earlier request in place. *)
Theorem events_last_writer
  (builder : CertificateStatusBuilder.t) (req : CertificateRequest.t)
  (req' : option CertificateRequest.t)
  (events events' : option EventList) (err : error) :
  CertificateStatusBuilder.Events (withCR (withEvents builder events') (Some req) events None)
  = events /\
  CertificateStatusBuilder.Events (withEvents (withCR builder (Some req) events None) events')
  = events' /\
  (let b' := withCR (withCR builder (Some req) events None) req' events' (Some err) in
   CertificateStatusBuilder.Events b' = events /\
   CertificateStatusBuilder.CRStatus b' = Some (CRStatus_failed err)).
Proof. repeat split. Qed.

(** X12: of two issuer lookups, or of two secret lookups, the later one
    decides the sub-report as if the earlier had not been recorded, unless
    the later one has neither an error nor a resource: that call changes
    nothing. *)
Theorem later_lookup_replaces_earlier
  (builder : CertificateStatusBuilder.t)
  (issuer1 issuer2 : option Issuer.t) (clusterIssuer1 clusterIssuer2 : option ClusterIssuer.t)
  (secret1 secret2 : option Secret.t) (err1 err2 : option error) :
  let withSecret := withSecret isPrintWide DecodeX509CertificateBytes in
  (err2 <> None \/ issuer2 <> None ->
   withIssuer (withIssuer builder issuer1 err1) issuer2 err2
   = withIssuer builder issuer2 err2 /\
   withIssuer (withClusterIssuer builder clusterIssuer1 err1) issuer2 err2
   = withIssuer builder issuer2 err2) /\
  (err2 <> None \/ clusterIssuer2 <> None ->
   withClusterIssuer (withIssuer builder issuer1 err1) clusterIssuer2 err2
   = withClusterIssuer builder clusterIssuer2 err2 /\
   withClusterIssuer (withClusterIssuer builder clusterIssuer1 err1) clusterIssuer2 err2
   = withClusterIssuer builder clusterIssuer2 err2) /\
  (err2 <> None \/ secret2 <> None ->
   withSecret (withSecret builder secret1 err1) secret2 err2
   = withSecret builder secret2 err2) /\
  (withIssuer (withIssuer builder issuer1 err1) None None = withIssuer builder issuer1 err1 /\
   withClusterIssuer (withIssuer builder issuer1 err1) None None
   = withIssuer builder issuer1 err1 /\
   withSecret (withSecret builder secret1 err1) None None = withSecret builder secret1 err1).
Proof.
  intros withSecret'. subst withSecret'.
  unfold withSecret, withIssuer, withClusterIssuer.
  split; [|split; [|split]].
  - intros Heff. destruct err2, issuer2; try (destruct Heff; congruence);
      destruct err1, issuer1, clusterIssuer1; split; reflexivity.
  - intros Heff. destruct err2, clusterIssuer2; try (destruct Heff; congruence);
      destruct err1, issuer1, clusterIssuer1; split; reflexivity.
  - intros Heff. destruct err2, secret2 as [secret2|]; try (destruct Heff; congruence);
      destruct err1, secret1 as [secret1|];
      repeat match goal with
        | |- context [if ?c then _ else _] => destruct c
        | |- context [match DecodeX509CertificateBytes ?d with _ => _ end] =>
            destruct (DecodeX509CertificateBytes d)
        end;
      reflexivity.
  - repeat split.
Qed.

(** X15: with a nil error and a secret whose ['tls.crt'] bytes are not
    empty and decode, [withSecret] stores an ok report with the name of the
    secret and the fields of the certificate as they are. *)
Theorem withSecret_parsed_certificate
  (builder : CertificateStatusBuilder.t) (secret : Secret.t)
  (certData : list byte) (x509Cert : x509.Certificate) :
  Secret.Data secret !! "tls.crt" = Some certData ->
  certData <> [] ->
  DecodeX509CertificateBytes certData = inl x509Cert ->
  let b' := withSecret isPrintWide DecodeX509CertificateBytes builder (Some secret) None in
  exists secretStatus,
    CertificateStatusBuilder.SecretStatus b' = Some secretStatus /\
    SecretStatus.Error secretStatus = None /\
    SecretStatus.Name secretStatus = Secret.Name secret /\
    SecretStatus.IssuerCountry secretStatus = x509.Issuer_Country x509Cert /\
    SecretStatus.IssuerOrganisation secretStatus = x509.Issuer_Organization x509Cert /\
    SecretStatus.IssuerCommonName secretStatus = x509.Issuer_CommonName x509Cert /\
    SecretStatus.KeyUsage secretStatus = x509.KeyUsage x509Cert /\
    SecretStatus.ExtKeyUsage secretStatus = x509.ExtKeyUsage x509Cert /\
    SecretStatus.PublicKeyAlgorithm secretStatus = x509.PublicKeyAlgorithm x509Cert /\
    SecretStatus.SignatureAlgorithm secretStatus = x509.SignatureAlgorithm x509Cert /\
    SecretStatus.SubjectKeyId secretStatus = x509.SubjectKeyId x509Cert /\
    SecretStatus.AuthorityKeyId secretStatus = x509.AuthorityKeyId x509Cert /\
    SecretStatus.SerialNumber secretStatus = x509.SerialNumber x509Cert.
Proof.
  intros Hdata Hne Hdecode b'. subst b'. unfold withSecret.
  rewrite Hdata. cbn [default from_option id].
  destruct certData as [|b rest]; [congruence|].
  cbn [length Nat.eqb]. rewrite Hdecode.
  eexists. split; [reflexivity|]. repeat split.
Qed.

(** X16: of a secret, [withSecret] reads the name and the ['tls.crt']
    entry only (a missing entry and an empty one being the same): two
    secrets that agree on these give the same builder. *)
Theorem withSecret_reads_name_and_certificate_only
  (builder : CertificateStatusBuilder.t) (secret1 secret2 : Secret.t) (err : option error) :
  Secret.Name secret1 = Secret.Name secret2 ->
  default [] (Secret.Data secret1 !! "tls.crt") = default [] (Secret.Data secret2 !! "tls.crt") ->
  withSecret isPrintWide DecodeX509CertificateBytes builder (Some secret1) err
  = withSecret isPrintWide DecodeX509CertificateBytes builder (Some secret2) err.
Proof.
  intros Hname Hcert. unfold withSecret. now rewrite Hname, Hcert.
Qed.

End BuilderCalls.

Section CallChains.

Variable isPrintWide : Z -> bool.
Variable DecodeX509CertificateBytes : list byte -> x509.Certificate + error.
Variable DescribeEvents : option EventList -> string.

Lemma apply_call_identity (builder : CertificateStatusBuilder.t) (c : call) :
  same_identity builder (apply_call isPrintWide DecodeX509CertificateBytes builder c).
Proof.
  destruct c as [events|kind|issuer err|clusterIssuer err|secret err|req events err];
    cbn [apply_call].
  - repeat split.
  - repeat split.
  - unfold withIssuer. destruct err, issuer; repeat split.
  - unfold withClusterIssuer. destruct err, clusterIssuer; repeat split.
  - destruct (withSecret_frame isPrintWide DecodeX509CertificateBytes builder secret err)
      as [(? & ? & ? & ? & ? & ? & ? & ? & ?) _].
    repeat split; assumption.
  - unfold withCR. destruct err, req; repeat split.
Qed.

Lemma run_identity (calls : list call) :
  forall builder,
    same_identity builder (run isPrintWide DecodeX509CertificateBytes calls builder).
Proof.
  induction calls as [|c calls IH]; intros builder; [repeat split|].
  cbn [run fold_left].
  pose proof (apply_call_identity builder c) as (? & ? & ? & ? & ? & ? & ? & ?).
  pose proof (IH (apply_call isPrintWide DecodeX509CertificateBytes builder c))
    as (? & ? & ? & ? & ? & ? & ? & ?).
  unfold run in *. repeat split; congruence.
Qed.

(** X13: the identity of a built report (name, namespace, creation time,
    conditions, DNS names, not-before, not-after and renewal time) is that
    of the certificate the builder was made from, whatever chain of calls
    came in between. *)
Theorem report_identity_is_the_certificate
  (crt : Certificate.t) (calls : list call) (builder : CertificateStatusBuilder.t) :
  newCertificateStatusBuilderFromCert (Some crt) = Some builder ->
  let report := build (run isPrintWide DecodeX509CertificateBytes calls builder) in
  CertificateStatus.Name report = Certificate.Name crt /\
  CertificateStatus.Namespace report = Certificate.Namespace crt /\
  CertificateStatus.CreationTime report = Certificate.CreationTimestamp crt /\
  CertificateStatus.Conditions report = Certificate.Status_Conditions crt /\
  CertificateStatus.DNSNames report = Certificate.Spec_DNSNames crt /\
  CertificateStatus.NotBefore report = Certificate.Status_NotBefore crt /\
  CertificateStatus.NotAfter report = Certificate.Status_NotAfter crt /\
  CertificateStatus.RenewalTime report = Certificate.Status_RenewalTime crt.
Proof.
  intros Hnew report. injection Hnew as <-.
  pose proof (run_identity calls
                (CertificateStatusBuilder.mk
                   (Certificate.Name crt) (Certificate.Namespace crt)
                   (Certificate.CreationTimestamp crt)
                   (Certificate.Status_Conditions crt) (Certificate.Spec_DNSNames crt)
                   None
                   (Certificate.Status_NotBefore crt) (Certificate.Status_NotAfter crt)
                   (Certificate.Status_RenewalTime crt)
                   "" None None None))
    as (? & ? & ? & ? & ? & ? & ? & ?).
  subst report. unfold build. cbn [CertificateStatus.Name CertificateStatus.Namespace
    CertificateStatus.CreationTime CertificateStatus.Conditions CertificateStatus.DNSNames
    CertificateStatus.NotBefore CertificateStatus.NotAfter CertificateStatus.RenewalTime].
  repeat split; assumption.
Qed.

Lemma apply_call_shape (builder : CertificateStatusBuilder.t) (c : call) :
  builder_shape builder ->
  builder_shape (apply_call isPrintWide DecodeX509CertificateBytes builder c).
Proof.
  intros (Hissuer & Hsecret & Hcr).
  assert (Hfailed : forall err, CRStatus_shape (CRStatus_failed err))
    by (intros err; split; reflexivity).
  destruct c as [events|kind|issuer err|clusterIssuer err|secret err|req events err];
    cbn [apply_call].
  - split; [|split]; assumption.
  - split; [|split]; assumption.
  - unfold withIssuer. destruct err, issuer; (split; [|split]); try assumption;
      intros s [= <-]; cbv; auto.
  - unfold withClusterIssuer. destruct err, clusterIssuer; (split; [|split]);
      try assumption; intros s [= <-]; cbv; auto.
  - unfold withSecret. destruct err; [|destruct secret as [secret|]].
    + split; [|split]; try assumption. intros s [= <-]. reflexivity.
    + destruct (_ =? _)%nat; [|destruct (DecodeX509CertificateBytes _)];
        (split; [|split]); try assumption; intros s [= <-]; reflexivity || exact I.
    + split; [|split]; assumption.
  - unfold withCR. destruct err, req; (split; [|split]); try assumption;
      intros s [= <-]; try apply Hfailed; split; reflexivity || exact I.
Qed.

Lemma run_shape (calls : list call) :
  forall builder,
    builder_shape builder ->
    builder_shape (run isPrintWide DecodeX509CertificateBytes calls builder).
Proof.
  induction calls as [|c calls IH]; intros builder Hshape; [exact Hshape|].
  cbn [run fold_left]. apply IH, apply_call_shape, Hshape.
Qed.

Lemma fresh_builder_shape (crt : Certificate.t) (builder : CertificateStatusBuilder.t) :
  newCertificateStatusBuilderFromCert (Some crt) = Some builder -> builder_shape builder.
Proof. intros [= <-]. repeat split; discriminate. Qed.

(** X14: in a report built from a new builder by any chain of calls, a
    failed sub-report holds its error and zero values only, an ok issuer
    report has the kind "Issuer" or "ClusterIssuer", and a request report
    has no event list. *)
Theorem built_subreports_have_shape
  (crt : Certificate.t) (calls : list call) (builder : CertificateStatusBuilder.t) :
  newCertificateStatusBuilderFromCert (Some crt) = Some builder ->
  let report := build (run isPrintWide DecodeX509CertificateBytes calls builder) in
  (forall s, CertificateStatus.IssuerStatus report = Some s ->
     match IssuerStatus.Error s with
     | Some err => s = IssuerStatus_failed err
     | None => IssuerStatus.Kind s = "Issuer" \/ IssuerStatus.Kind s = "ClusterIssuer"
     end) /\
  (forall s err, CertificateStatus.SecretStatus report = Some s ->
     SecretStatus.Error s = Some err -> s = SecretStatus_failed err) /\
  (forall s, CertificateStatus.CRStatus report = Some s ->
     CRStatus.Events s = None /\
     (forall err, CRStatus.Error s = Some err -> s = CRStatus_failed err)).
Proof.
  intros Hnew report.
  destruct (run_shape calls builder (fresh_builder_shape crt builder Hnew))
    as (Hissuer & Hsecret & Hcr).
  subst report. unfold build.
  cbn [CertificateStatus.IssuerStatus CertificateStatus.SecretStatus CertificateStatus.CRStatus].
  split; [|split].
  - intros s Hs. exact (Hissuer s Hs).
  - intros s err Hs Herr. specialize (Hsecret s Hs). unfold SecretStatus_shape in Hsecret.
    now rewrite Herr in Hsecret.
  - intros s Hs. destruct (Hcr s Hs) as [Hevents Hfailed]. split; [exact Hevents|].
    intros err Herr. now rewrite Herr in Hfailed.
Qed.

(** X18: the request report of a built report has no events of its own,
    so its rendering ends with the description of the nil event list, and
    that description is what is printed. *)
Theorem built_request_report_describes_no_events
  (crt : Certificate.t) (calls : list call) (builder : CertificateStatusBuilder.t)
  (crStatus : CRStatus.t) :
  newCertificateStatusBuilderFromCert (Some crt) = Some builder ->
  CertificateStatus.CRStatus
    (build (run isPrintWide DecodeX509CertificateBytes calls builder)) = Some crStatus ->
  CRStatus.Error crStatus = None ->
  CRStatus.String DescribeEvents crStatus
  = ("CertificateRequest:" +:+ nl +:+
     "  Name: " +:+ CRStatus.Name crStatus +:+ nl +:+
     "  Namespace: " +:+ CRStatus.Namespace crStatus +:+ nl +:+
     "  Conditions:" +:+ nl +:+
     "  " +:+ conditionMsg (CRStatus.Conditions crStatus) +:+
     DescribeEvents None,
     fmt_Println_bytes (bytes_of_string (DescribeEvents None))).
Proof.
  intros Hnew Hcr Herr.
  destruct (run_shape calls builder (fresh_builder_shape crt builder Hnew))
    as (_ & _ & Hshape).
  destruct (Hshape crStatus Hcr) as [Hevents _].
  unfold CRStatus.String. rewrite Herr, Hevents.
  cbv [bind fmt_Println ret].
  now rewrite string_app_nil_r, !string_app_assoc.
Qed.

End CallChains.

(** ** The conditions block *)

Lemma conditionLine_newline (con : Condition) : endsWithNewline (conditionLine con).
Proof.
  exists ("  " +:+ Type_ con +:+ ": " +:+ Status con +:+ ", Reason: " +:+ Reason con
          +:+ ", Message: " +:+ Message con).
  unfold conditionLine. now rewrite !string_app_assoc.
Qed.

Lemma conditionLines_newline (con : Condition) (rest : list Condition) :
  endsWithNewline (conditionLines (con :: rest)).
Proof.
  revert con. induction rest as [|con' rest IH]; intros con.
  - destruct (conditionLine_newline con) as [body Hbody].
    exists body. cbn [conditionLines]. now rewrite string_app_nil_r.
  - destruct (IH con') as [body Hbody].
    exists (conditionLine con +:+ body).
    change (conditionLines (con :: con' :: rest))
      with (conditionLine con +:+ conditionLines (con' :: rest)).
    now rewrite Hbody, string_app_assoc.
Qed.

(** X17: the conditions block is never empty and ends with a newline, and
    so does the rendering of every ok issuer report. *)
Theorem ok_renderings_end_with_newline
  (conditions : list Condition) (issuerStatus : IssuerStatus.t) :
  conditionMsg conditions <> "" /\
  endsWithNewline (conditionMsg conditions) /\
  (IssuerStatus.Error issuerStatus = None ->
   endsWithNewline (IssuerStatus.String issuerStatus)).
Proof.
  assert (Hmsg : forall l, endsWithNewline (conditionMsg l)).
  { intros l. rewrite conditionMsg_lines. destruct l as [|con rest].
    - now exists "  No Conditions set".
    - apply conditionLines_newline. }
  split; [|split].
  - destruct (Hmsg conditions) as [body ->]. destruct body; discriminate.
  - apply Hmsg.
  - intros Herr. unfold IssuerStatus.String. rewrite Herr.
    destruct (Hmsg (IssuerStatus.Conditions issuerStatus)) as [body ->].
    eexists. now rewrite <- !string_app_assoc.
Qed.

(** ** The further properties at concrete inputs *)

Lemma later_lookup_replaces_earlier_witness :
  let issuer1 := Issuer.mk "ca-1" [] in
  let issuer2 := Issuer.mk "ca-2" [] in
  let decode := fun _ : list byte => inr (errorString "asn1: syntax error") in
  withIssuer (withIssuer exampleBuilder (Some issuer1) None) (Some issuer2) None
  = withIssuer exampleBuilder (Some issuer2) None /\
  withClusterIssuer (withIssuer exampleBuilder (Some issuer1) None) None
    (Some (errorString "not found"))
  = withClusterIssuer exampleBuilder None (Some (errorString "not found")) /\
  withSecret (fun _ => false) decode
    (withSecret (fun _ => false) decode exampleBuilder None (Some (errorString "not found")))
    (Some (Secret.mk "tls" ∅)) None
  = withSecret (fun _ => false) decode exampleBuilder (Some (Secret.mk "tls" ∅)) None.
Proof.
  intros issuer1 issuer2 decode.
  split; [|split].
  - apply (proj1 (later_lookup_replaces_earlier (fun _ => false) decode exampleBuilder
                    (Some issuer1) (Some issuer2) None None None None None None)).
    right. discriminate.
  - apply (proj1 (proj2 (later_lookup_replaces_earlier (fun _ => false) decode exampleBuilder
                           (Some issuer1) None None None None None None
                           (Some (errorString "not found"))))).
    left. discriminate.
  - apply (proj1 (proj2 (proj2 (later_lookup_replaces_earlier (fun _ => false) decode
                                  exampleBuilder None None None None
                                  None (Some (Secret.mk "tls" ∅))
                                  (Some (errorString "not found")) None)))).
    right. discriminate.
Defined.

Lemma withSecret_parsed_certificate_witness :
  let x509Cert := x509.mkCertificate ["GB"] ["cert-manager"] "ca" 5 [1; 2] 1 4
                    [xab] [xcd] (Some 255) in
  let decode := fun _ : list byte => inl x509Cert in
  let secret := Secret.mk "tls" {[ "tls.crt" := [x30; x82] ]} in
  exists secretStatus,
    CertificateStatusBuilder.SecretStatus
      (withSecret (fun _ => false) decode exampleBuilder (Some secret) None)
    = Some secretStatus /\
    SecretStatus.Error secretStatus = None /\
    SecretStatus.Name secretStatus = "tls" /\
    SecretStatus.SerialNumber secretStatus = Some 255.
Proof.
  intros x509Cert decode secret.
  destruct (withSecret_parsed_certificate (fun _ => false) decode exampleBuilder secret
              [x30; x82] x509Cert eq_refl ltac:(discriminate) eq_refl)
    as (secretStatus & Hstatus & Herr & Hname & _ & _ & _ & _ & _ & _ & _ & _ & _ & Hserial).
  exists secretStatus. repeat split; assumption.
Defined.

Lemma withSecret_reads_name_and_certificate_only_witness :
  let decode := fun _ : list byte => inr (errorString "asn1: syntax error") in
  withSecret (fun _ => false) decode exampleBuilder
    (Some (Secret.mk "tls" {[ "tls.crt" := [x30]; "tls.key" := [x01; x02] ]})) None
  = withSecret (fun _ => false) decode exampleBuilder
      (Some (Secret.mk "tls" {[ "tls.crt" := [x30] ]})) None.
Proof.
  intros decode.
  apply (withSecret_reads_name_and_certificate_only (fun _ => false) decode exampleBuilder
           (Secret.mk "tls" {[ "tls.crt" := [x30]; "tls.key" := [x01; x02] ]})
           (Secret.mk "tls" {[ "tls.crt" := [x30] ]}) None); reflexivity.
Defined.

Lemma report_identity_is_the_certificate_witness :
  let crt := Certificate.mk "web" "default" 1600000000 ["web.example.com"]
               [mkCondition "Ready" "True" "Ready" "Certificate is up to date"]
               (Some 1600000000) (Some 1607776000) (Some 1605184000) in
  let decode := fun _ : list byte => inr (errorString "asn1: syntax error") in
  let calls := [ WithIssuerKind "ClusterIssuer";
                 WithClusterIssuer None (Some (errorString "not found"));
                 WithSecret (Some (Secret.mk "web-tls" ∅)) None;
                 WithCR (Some (CertificateRequest.mk "web-1" "default" []))
                   (Some (mkEventList [])) None ] in
  exists builder,
    newCertificateStatusBuilderFromCert (Some crt) = Some builder /\
    CertificateStatus.Name (build (run (fun _ => false) decode calls builder)) = "web" /\
    CertificateStatus.DNSNames (build (run (fun _ => false) decode calls builder))
    = ["web.example.com"].
Proof.
  intros crt decode calls. eexists. split; [reflexivity|].
  pose proof (report_identity_is_the_certificate (fun _ => false) decode crt calls _ eq_refl)
    as (Hname & _ & _ & _ & Hdns & _).
  split; [exact Hname | exact Hdns].
Defined.

Lemma built_subreports_have_shape_witness :
  let crt := Certificate.mk "web" "default" 1600000000 [] [] None None None in
  let decode := fun _ : list byte => inr (errorString "asn1: syntax error") in
  let calls := [ WithCR (Some (CertificateRequest.mk "web-1" "default" []))
                   (Some (mkEventList [mkEvent "Normal" "Issued" "done"])) None ] in
  exists builder,
    newCertificateStatusBuilderFromCert (Some crt) = Some builder /\
    forall s,
      CertificateStatus.CRStatus (build (run (fun _ => false) decode calls builder)) = Some s ->
      CRStatus.Events s = None.
Proof.
  intros crt decode calls. eexists. split; [reflexivity|].
  intros s Hs.
  pose proof (built_subreports_have_shape (fun _ => false) decode crt calls _ eq_refl)
    as (_ & _ & Hcr).
  exact (proj1 (Hcr s Hs)).
Defined.

Lemma built_request_report_describes_no_events_witness :
  let crt := Certificate.mk "web" "default" 1600000000 [] [] None None None in
  let decode := fun _ : list byte => inr (errorString "asn1: syntax error") in
  let events := Some (mkEventList [mkEvent "Normal" "Issued" "done"]) in
  let describe := fun el : option EventList =>
                    match el with Some _ => "Events: some" | None => "" end in
  let calls := [ WithCR (Some (CertificateRequest.mk "web-1" "default" [])) events None ] in
  exists builder crStatus,
    newCertificateStatusBuilderFromCert (Some crt) = Some builder /\
    CertificateStatus.CRStatus (build (run (fun _ => false) decode calls builder))
    = Some crStatus /\
    CRStatus.String describe crStatus
    = ("CertificateRequest:" +:+ nl +:+
       "  Name: web-1" +:+ nl +:+
       "  Namespace: default" +:+ nl +:+
       "  Conditions:" +:+ nl +:+
       "    No Conditions set" +:+ nl,
       "[]" +:+ nl).
Proof.
  intros crt decode events describe calls. eexists _, _.
  split; [reflexivity|]. split; [reflexivity|].
  exact (built_request_report_describes_no_events (fun _ => false) decode describe
           crt calls _ _ eq_refl eq_refl eq_refl).
Defined.

Lemma ok_renderings_end_with_newline_witness :
  endsWithNewline (IssuerStatus.String (IssuerStatus.mk None "ca" "Issuer" [])).
Proof.
  apply (proj2 (proj2 (ok_renderings_end_with_newline []
                         (IssuerStatus.mk None "ca" "Issuer" [])))).
  reflexivity.
Defined.
